(** * emoji-explainer: a shallow embedding of the FastAPI/Prisma service

    The tables of the Prisma data store are lists of rows (the order of a
    list is the order in which rows were inserted); every query the code
    issues is a primitive of a small state-and-exception monad that also
    records the data-store operations and outbound HTTP calls it performs.
    The thirteen route handlers of [server.py] are built on top of the
    service functions of [project/*_service.py]. *)

From Stdlib Require Import Ascii String List ZArith Bool Lia Sorted DecimalString DecimalPos.
Import ListNotations.
Open Scope Z_scope.
Open Scope string_scope.

(** ** Data model (Prisma schema as used by the services) *)

(** [prisma.enums.Role]. *)
Inductive Role : Set := ADMIN | USER.

Definition Role_eqb (a b : Role) : bool :=
  match a, b with
  | ADMIN, ADMIN | USER, USER => true
  | _, _ => false
  end.

(** The [Role(Enum)] classes declared in [createUser_service],
    [addUserRole_service] and [updateUser_service] only annotate
    [ADMIN: str] and [USER: str]; an [Enum] gets members only from
    assignments, so these classes have no member at all. *)
Inductive LocalRole : Set := .

(** [LocalRole[name]] / validation of a value into [LocalRole]: there is
    no member to find. *)
Definition LocalRole_lookup (r : Role) : option LocalRole := None.

(** [prisma.models.User]: the columns the services read or write. *)
Record User : Set := mkUser {
  u_id : Z;
  u_email : string;
  u_password : string;
  u_role : Role
}.

(** [prisma.models.EmojiRequest]. *)
Record EmojiRequest : Set := mkEmojiRequest {
  r_id : Z;
  r_userId : Z;
  r_emoji : string;
  r_explanation : option string;
  r_status : string;
  r_createdAt : Z
}.

(** [prisma.models.EmojiExplanation]. *)
Record EmojiExplanation : Set := mkEmojiExplanation {
  e_id : Z;
  e_emoji : string;
  e_explanation : string
}.

(** The data store: three tables and the autoincrement counters of the
    two tables the services insert into. *)
Record Store : Set := mkStore {
  users : list User;
  requests : list EmojiRequest;
  explanations : list EmojiExplanation;
  next_user_id : Z;
  next_explanation_id : Z
}.

(** ** Exceptions, effects and the service monad *)

Inductive ExcKind : Set :=
| ValueError
| KeyError
| AttributeError
| ValidationError
| UniqueViolationError
| HTTPStatusError
| ConnectError
| UnknownRelationalFieldError
| HTTPException (status_code : Z).

(** A raised exception; [exc_msg] is [str(e)]. *)
Record Exc : Set := mkExc { exc_kind : ExcKind; exc_msg : string }.

(** What a request does to the outside world: one data-store query on a
    model, or one outbound HTTP POST. *)
Inductive Effect : Set :=
| DbOp (model action : string)
| HttpPost (url : string).

Inductive Outcome (A : Type) : Type :=
| Ret (a : A)
| Raise (e : Exc).
Arguments Ret {A} a.
Arguments Raise {A} e.

(** An [async] service function: the store is threaded through, the
    effects are logged in order, and the result is a value or a raised
    exception (the mutations done before the exception stay). *)
Definition M (A : Type) : Type := Store -> Store * list Effect * Outcome A.

Definition ret {A} (a : A) : M A := fun s => (s, [], Ret a).
Definition raise {A} (e : Exc) : M A := fun s => (s, [], Raise e).

Definition bind {A B} (m : M A) (k : A -> M B) : M B := fun s =>
  match m s with
  | (s1, l1, Ret a) =>
      match k a s1 with
      | (s2, l2, r) => (s2, app l1 l2, r)
      end
  | (s1, l1, Raise e) => (s1, l1, Raise e)
  end.

Notation "x <- m ;; k" := (bind m (fun x => k))
  (at level 61, m at next level, right associativity).
Notation "m ;;; k" := (bind m (fun _ => k))
  (at level 61, right associativity).

(** [try: m except Exception as e: h e]. *)
Definition try_except {A} (m : M A) (h : Exc -> M A) : M A := fun s =>
  match m s with
  | (s1, l1, Ret a) => (s1, l1, Ret a)
  | (s1, l1, Raise e) =>
      match h e s1 with
      | (s2, l2, r) => (s2, app l1 l2, r)
      end
  end.

Definition st_of {A} (r : Store * list Effect * Outcome A) : Store :=
  fst (fst r).
Definition log_of {A} (r : Store * list Effect * Outcome A) : list Effect :=
  snd (fst r).
Definition out_of {A} (r : Store * list Effect * Outcome A) : Outcome A :=
  snd r.

(** [str(n)] for a Python [int]. *)
Definition py_str_int (z : Z) : string := NilZero.string_of_int (Z.to_int z).

(** ** Prisma client primitives

    Each primitive is one query and logs one [DbOp].  As in
    prisma-client-py, [update] and [delete] return [None] when no row
    matches, and [create] raises on a violated unique constraint
    ([User.email], [EmojiExplanation.emoji]). *)

Fixpoint find_user_id (l : list User) (i : Z) : option User :=
  match l with
  | [] => None
  | u :: l' => if Z.eqb (u_id u) i then Some u else find_user_id l' i
  end.

Fixpoint find_user_email (l : list User) (e : string) : option User :=
  match l with
  | [] => None
  | u :: l' => if String.eqb (u_email u) e then Some u else find_user_email l' e
  end.

Definition set_users (s : Store) (l : list User) : Store :=
  mkStore l (requests s) (explanations s) (next_user_id s) (next_explanation_id s).

Definition User_find_unique_id (i : Z) : M (option User) := fun s =>
  (s, [DbOp "User" "find_unique"], Ret (find_user_id (users s) i)).

Definition User_find_unique_email (e : string) : M (option User) := fun s =>
  (s, [DbOp "User" "find_unique"], Ret (find_user_email (users s) e)).

Definition User_create (email password : string) (role : Role) : M User := fun s =>
  match find_user_email (users s) email with
  | Some _ =>
      (s, [DbOp "User" "create"],
       Raise (mkExc UniqueViolationError "Unique constraint failed on the fields: (`email`)"))
  | None =>
      let u := mkUser (next_user_id s) email password role in
      (mkStore (app (users s) [u]) (requests s) (explanations s)
               (next_user_id s + 1) (next_explanation_id s),
       [DbOp "User" "create"], Ret u)
  end.

(** The row [where={"id": i}] designates is the one [find_user_id]
    returns; [update] and [delete] act on that row only. *)
Fixpoint update_user_id (l : list User) (i : Z) (f : User -> User) : list User :=
  match l with
  | [] => []
  | u :: l' => if Z.eqb (u_id u) i then f u :: l' else u :: update_user_id l' i f
  end.

Fixpoint remove_user_id (l : list User) (i : Z) : list User :=
  match l with
  | [] => []
  | u :: l' => if Z.eqb (u_id u) i then l' else u :: remove_user_id l' i
  end.

(** [update(where={"id": i}, data=...)]: [f] rewrites the row. *)
Definition User_update (i : Z) (f : User -> User) : M (option User) := fun s =>
  match find_user_id (users s) i with
  | None => (s, [DbOp "User" "update"], Ret None)
  | Some u =>
      (set_users s (update_user_id (users s) i f),
       [DbOp "User" "update"], Ret (Some (f u)))
  end.

Definition User_delete (i : Z) : M (option User) := fun s =>
  match find_user_id (users s) i with
  | None => (s, [DbOp "User" "delete"], Ret None)
  | Some u =>
      (set_users s (remove_user_id (users s) i),
       [DbOp "User" "delete"], Ret (Some u))
  end.

Definition EmojiRequest_delete_many_user (uid : Z) : M Z := fun s =>
  let kept := filter (fun r => negb (Z.eqb (r_userId r) uid)) (requests s) in
  (mkStore (users s) kept (explanations s) (next_user_id s) (next_explanation_id s),
   [DbOp "EmojiRequest" "delete_many"],
   Ret (Z.of_nat (length (requests s)) - Z.of_nat (length kept))).

Definition EmojiRequest_count : M Z := fun s =>
  (s, [DbOp "EmojiRequest" "count"], Ret (Z.of_nat (length (requests s)))).

Fixpoint find_expl_id (l : list EmojiExplanation) (i : Z) : option EmojiExplanation :=
  match l with
  | [] => None
  | x :: l' => if Z.eqb (e_id x) i then Some x else find_expl_id l' i
  end.

Fixpoint find_expl_emoji (l : list EmojiExplanation) (e : string)
  : option EmojiExplanation :=
  match l with
  | [] => None
  | x :: l' => if String.eqb (e_emoji x) e then Some x else find_expl_emoji l' e
  end.

Definition EmojiExplanation_find_unique_id (i : Z) : M (option EmojiExplanation) :=
  fun s => (s, [DbOp "EmojiExplanation" "find_unique"],
            Ret (find_expl_id (explanations s) i)).

Definition EmojiExplanation_find_unique_emoji (e : string)
  : M (option EmojiExplanation) :=
  fun s => (s, [DbOp "EmojiExplanation" "find_unique"],
            Ret (find_expl_emoji (explanations s) e)).

Definition EmojiExplanation_create (emoji explanation : string) : M EmojiExplanation :=
  fun s =>
  match find_expl_emoji (explanations s) emoji with
  | Some _ =>
      (s, [DbOp "EmojiExplanation" "create"],
       Raise (mkExc UniqueViolationError "Unique constraint failed on the fields: (`emoji`)"))
  | None =>
      let x := mkEmojiExplanation (next_explanation_id s) emoji explanation in
      (mkStore (users s) (requests s) (app (explanations s) [x])
               (next_user_id s) (next_explanation_id s + 1),
       [DbOp "EmojiExplanation" "create"], Ret x)
  end.

(** [EmojiRequest.find_many(where={"status": "EXPLAINED"},
    order={"createdAt": "desc"}, take=10)]: filter, order by [createdAt]
    descending (ties keep insertion order), keep the first ten. *)
Fixpoint insert_desc (r : EmojiRequest) (l : list EmojiRequest) : list EmojiRequest :=
  match l with
  | [] => [r]
  | x :: l' =>
      if Z.ltb (r_createdAt x) (r_createdAt r) then r :: x :: l' else x :: insert_desc r l'
  end.

Fixpoint sort_createdAt_desc (l : list EmojiRequest) : list EmojiRequest :=
  match l with
  | [] => []
  | x :: l' => insert_desc x (sort_createdAt_desc l')
  end.

Definition explained (r : EmojiRequest) : bool := String.eqb (r_status r) "EXPLAINED".

Definition EmojiRequest_find_many_recent : M (list EmojiRequest) := fun s =>
  (s, [DbOp "EmojiRequest" "find_many"],
   Ret (firstn 10 (sort_createdAt_desc (filter explained (requests s))))).

(** ** The outbound interpretation call *)

(** The body of the reply, as [response.json()] sees it. *)
Inductive ReplyBody : Set :=
| NotJson
| JsonBody (explanation : option string).

(** What the interpretation API does with the one POST it receives. *)
Inductive ExtReply : Set :=
| ConnFailure
| Reply (status_code : Z) (body : ReplyBody).

Definition interpret_url : string := "https://api.emojiinterpreter.example.com/interpret".

Definition http_post (url : string) (reply : ExtReply) : M ExtReply := fun s =>
  (s, [HttpPost url], Ret reply).

(** [call_emoji_interpretation_service]: one POST, [raise_for_status]
    (every non-2xx status raises), then [.get("explanation")] and a
    truthiness test. *)
Definition call_emoji_interpretation_service (emoji : string) (reply : ExtReply)
  : M string :=
  response <- http_post interpret_url reply ;;
  match response with
  | ConnFailure => raise (mkExc ConnectError "All connection attempts failed")
  | Reply code body =>
      if negb (Z.leb 200 code && Z.ltb code 300) then
        raise (mkExc HTTPStatusError ("Server error for url " ++ interpret_url))
      else
        match body with
        | NotJson => raise (mkExc ValueError "Expecting value: line 1 column 1 (char 0)")
        | JsonBody None | JsonBody (Some "") =>
            raise (mkExc ValueError "No interpretation was returned from the service.")
        | JsonBody (Some interpreted_data) => ret interpreted_data
        end
  end.

(** ** Python's [int(str)] (base 10, ASCII input) *)

Definition is_py_space (c : Ascii.ascii) : bool :=
  match Ascii.nat_of_ascii c with
  | 32 | 9 | 10 | 11 | 12 | 13 => true
  | _ => false
  end%nat.

Fixpoint strip_left (l : list Ascii.ascii) : list Ascii.ascii :=
  match l with
  | c :: l' => if is_py_space c then strip_left l' else l
  | [] => []
  end.

Definition py_strip (l : list Ascii.ascii) : list Ascii.ascii :=
  rev (strip_left (rev (strip_left l))).

Definition digit_val (c : Ascii.ascii) : option Z :=
  let n := Ascii.nat_of_ascii c in
  if (48 <=? n)%nat && (n <=? 57)%nat then Some (Z.of_nat n - 48) else None.

(** Digits, with single underscores allowed between two digits. *)
Fixpoint parse_digits (l : list Ascii.ascii) (acc : Z) (after_digit : bool) : option Z :=
  match l with
  | [] => if after_digit then Some acc else None
  | c :: l' =>
      match digit_val c with
      | Some d => parse_digits l' (acc * 10 + d) true
      | None =>
          if Ascii.eqb c "_"%char && after_digit then parse_digits l' acc false
          else None
      end
  end.

Definition py_int (s : string) : option Z :=
  match py_strip (list_ascii_of_string s) with
  | c :: r =>
      if Ascii.eqb c "-"%char then option_map Z.opp (parse_digits r 0 false)
      else if Ascii.eqb c "+"%char then parse_digits r 0 false
      else parse_digits (c :: r) 0 false
  | [] => None
  end.

Definition int_error (s : string) : Exc :=
  mkExc ValueError ("invalid literal for int() with base 10: '" ++ s ++ "'").

(** ** Response models *)

Record DeleteUserResponse : Set := mkDeleteUserResponse { du_status : string; du_message : string }.
Record UserAuthenticationResponse : Set := mkUserAuthenticationResponse { jwt : string; auth_error : option string }.
Record CreateUserResponse : Set := mkCreateUserResponse { cu_id : Z; cu_username : string; cu_role : LocalRole }.
Record ManageUserRoleResponse : Set := mkManageUserRoleResponse { mr_success : bool; mr_message : string }.
Record RemoveUserRoleResponse : Set := mkRemoveUserRoleResponse { rr_success : bool; rr_message : string }.
(** [updateUser_service.User]. *)
Record UserOut : Set := mkUserOut { uo_id : Z; uo_email : string; uo_role : LocalRole }.
Record UpdateUserDetailsResponse : Set := mkUpdateUserDetailsResponse { ud_message : string; updated_user : UserOut }.
Record UserDetailResponse : Set := mkUserDetailResponse { username : string; roles : list string; creationDate : Z }.
Record EmojiInterpretResponse : Set := mkEmojiInterpretResponse { ei_emoji : string; ei_explanation : string }.
Record EmojiInfo : Set := mkEmojiInfo { info_emoji : string; info_explanation : option string }.
Record RecentEmojisResponse : Set := mkRecentEmojisResponse { emojis : list EmojiInfo }.
Record GetEmojiExplanationResponse : Set := mkGetEmojiExplanationResponse { ge_emoji : string; ge_explanation : option string }.
Record EmojiExplanationResponse : Set := mkEmojiExplanationResponse { ee_emoji : string; ee_explanation : string }.
Record HealthCheckResponse : Set := mkHealthCheckResponse { hc_status : string; hc_message : string }.
Record ComponentStatus : Set := mkComponentStatus { component_name : string; cs_status : string; last_checked : string }.
Record SystemStatusResponse : Set := mkSystemStatusResponse { uptime : string; health : list (string * string); details : list ComponentStatus }.

Definition Role_name (r : Role) : string :=
  match r with ADMIN => "ADMIN" | USER => "USER" end.

(** [repr()] of a member of the Prisma enum [Role], e.g.
    [<Role.USER: 'USER'>]. *)
Definition Role_repr (r : Role) : string :=
  "<Role." ++ Role_name r ++ ": '" ++ Role_name r ++ "'>".

(** ** Services *)

(** [deleteUser_service.deleteUser]. *)
Definition deleteUser (userId approverId : Z) : M DeleteUserResponse :=
  approver <- User_find_unique_id approverId ;;
  if match approver with
     | None => true
     | Some a => negb (Role_eqb (u_role a) ADMIN)
     end
  then ret (mkDeleteUserResponse "error" "Approver is not authorized or does not exist.")
  else
    user <- User_find_unique_id userId ;;
    match user with
    | None => ret (mkDeleteUserResponse "error" "User does not exist.")
    | Some u =>
        if Role_eqb (u_role u) ADMIN then
          ret (mkDeleteUserResponse "error" "Cannot delete an admin user.")
        else
          EmojiRequest_delete_many_user userId ;;;
          User_delete userId ;;;
          ret (mkDeleteUserResponse "success" "User successfully deleted.")
    end.

(** [createUser_service.createUser].  [bcrypt_hashpw password salt] is
    [bcrypt.hashpw(password.encode(), salt).decode()], with [salt] the
    value [bcrypt.gensalt()] returned.  The [role] argument is represented
    by the Prisma role [role.name] names.  The final [Role[user.role]]
    looks the Prisma member up in the module's member-less [Role] class;
    [str()] of the [KeyError] is the [repr()] of that member. *)
Definition createUser (bcrypt_hashpw : string -> string -> string)
    (username password : string) (role : Role) (salt : string)
  : M CreateUserResponse :=
  let hashed_password := bcrypt_hashpw password salt in
  user <- User_create username hashed_password role ;;
  match LocalRole_lookup (u_role user) with
  | None => raise (mkExc KeyError (Role_repr (u_role user)))
  | Some r => ret (mkCreateUserResponse (u_id user) (u_email user) r)
  end.

(** [authenticateUser_service.authenticateUser]. *)
Definition authenticateUser (username password : string) : M UserAuthenticationResponse :=
  user <- User_find_unique_email username ;;
  match user with
  | None => ret (mkUserAuthenticationResponse "" (Some "Invalid username or password"))
  | Some u =>
      if negb (String.eqb (u_password u) password) then
        ret (mkUserAuthenticationResponse "" (Some "Invalid username or password"))
      else
        ret (mkUserAuthenticationResponse ("example_token_for_" ++ py_str_int (u_id u)) None)
  end.

Definition set_role (r : Role) (u : User) : User :=
  mkUser (u_id u) (u_email u) (u_password u) r.

(** [addUserRole_service.addUserRole]; [new_role] is represented by the
    Prisma role [new_role.value] names. *)
Definition addUserRole (user_id : Z) (new_role : Role) : M ManageUserRoleResponse :=
  user <- User_find_unique_id user_id ;;
  match user with
  | None =>
      ret (mkManageUserRoleResponse false
             ("No user found with ID " ++ py_str_int user_id ++ "."))
  | Some _ =>
      try_except
        (User_update user_id (set_role new_role) ;;;
         ret (mkManageUserRoleResponse true "User role updated successfully."))
        (fun e => ret (mkManageUserRoleResponse false
                         ("Failed to update user role: " ++ exc_msg e)))
  end.

(** [deleteUserRole_service.deleteUserRole]. *)
Definition deleteUserRole (user_id : Z) : M RemoveUserRoleResponse :=
  try_except
    (user <- User_find_unique_id user_id ;;
     match user with
     | None => ret (mkRemoveUserRoleResponse false "User not found.")
     | Some _ =>
         User_update user_id (set_role USER) ;;;
         ret (mkRemoveUserRoleResponse true "User role updated successfully.")
     end)
    (fun e => ret (mkRemoveUserRoleResponse false
                     ("Failed to update user role: " ++ exc_msg e))).

(** [User.update(where={"id": i}, data=update_data)] with the optional
    [email] and [role] keys.  With no row of that id nothing is written
    and prisma-client-py returns [None]; otherwise a new email taken by
    another row violates the unique constraint. *)
Definition User_update_details (i : Z) (email : option string) (role : option Role)
  : M (option User) := fun s =>
  match find_user_id (users s) i with
  | None => (s, [DbOp "User" "update"], Ret None)
  | Some _ =>
  let clash :=
    match email with
    | Some e =>
        match find_user_email (users s) e with
        | Some v => negb (Z.eqb (u_id v) i)
        | None => false
        end
    | None => false
    end in
  if clash then
    (s, [DbOp "User" "update"],
     Raise (mkExc UniqueViolationError "Unique constraint failed on the fields: (`email`)"))
  else
    User_update i (fun u =>
      mkUser (u_id u) (match email with Some e => e | None => u_email u end)
             (u_password u) (match role with Some r => r | None => u_role u end)) s
  end.

(** Pydantic validation of the [updated_user] field: a missing row ([None])
    fails, and so does any row, since its role has no member of the
    module's [Role] class to validate into. *)
Definition validate_UserOut (o : option User) : option UserOut :=
  match o with
  | None => None
  | Some u =>
      match LocalRole_lookup (u_role u) with
      | None => None
      | Some r => Some (mkUserOut (u_id u) (u_email u) r)
      end
  end.

Definition UpdateUserDetailsResponse_new (message : string) (o : option User)
  : M UpdateUserDetailsResponse :=
  match validate_UserOut o with
  | None => raise (mkExc ValidationError
                     "1 validation error for UpdateUserDetailsResponse")
  | Some v => ret (mkUpdateUserDetailsResponse message v)
  end.

(** [updateUser_service.updateUser]; [role] ranges over the Prisma roles
    (the module's own [Role] class has no member, so a caller can only
    pass [None]). *)
Definition updateUser (userId : Z) (email : option string) (role : option Role)
  : M UpdateUserDetailsResponse :=
  let update_data_nonempty :=
    match email, role with None, None => false | _, _ => true end in
  if update_data_nonempty then
    updated_user <- User_update_details userId email role ;;
    UpdateUserDetailsResponse_new "User details updated successfully." updated_user
  else
    existing_user <- User_find_unique_id userId ;;
    UpdateUserDetailsResponse_new "No updates applied." existing_user.

(** [User.find_unique(where={"id": i}, include={"role": True, "requests": ...})]:
    [role] is a scalar enum column, not a relation, so prisma-client-py's
    query builder refuses the [include] before any query is sent. *)
Definition dq : string := String (Ascii.ascii_of_nat 34) EmptyString.

Definition User_find_unique_with_requests (i : Z) : M (option (User * list Z)) := fun s =>
  (s, [], Raise (mkExc UnknownRelationalFieldError
                   ("Field: " ++ dq ++ "role" ++ dq ++
                    " either does not exist or is not a relational field on the User model"))).

Definition list_min (x : Z) (l : list Z) : Z := fold_left Z.min l x.

(** [getUser_service.getUser]; [now] is [datetime.now()]. *)
Definition getUser (userId : Z) (now : Z) : M UserDetailResponse :=
  user <- User_find_unique_with_requests userId ;;
  match user with
  | None => raise (mkExc ValueError "User not found.")
  | Some (u, created) =>
      let creation := match created with [] => now | c :: cs => list_min c cs end in
      ret (mkUserDetailResponse (u_email u) [Role_name (u_role u)] creation)
  end.

(** [getApiHealth_service.getApiHealth]. *)
Definition getApiHealth : M HealthCheckResponse :=
  try_except
    (emoji_requests <- EmojiRequest_count ;;
     if Z.leb 0 emoji_requests then
       ret (mkHealthCheckResponse "UP" "API Gateway is running and accepting requests.")
     else
       ret (mkHealthCheckResponse "UNKNOWN" "Unable to determine the status."))
    (fun e => ret (mkHealthCheckResponse "DOWN" (exc_msg e))).

(** [systemHealthCheck_service.systemHealthCheck]; [now] is
    [datetime.now().isoformat()]. *)
Definition systemHealthCheck (now : string) : M SystemStatusResponse :=
  let component_details :=
    [mkComponentStatus "Response Manager" "Operational" now;
     mkComponentStatus "Emoji Interpreter" "Operational" now] in
  ret (mkSystemStatusResponse "72 hours"
         (map (fun c => (component_name c, cs_status c)) component_details)
         component_details).

(** [fetchRecentEmojis_service.fetchRecentEmojis].  [str()] of Starlette's
    [HTTPException] is ["<status_code>: <detail>"]. *)
Definition fetchRecentEmojis : M RecentEmojisResponse :=
  recent_emojis <- EmojiRequest_find_many_recent ;;
  match recent_emojis with
  | [] => raise (mkExc (HTTPException 404) "404: No recent emojis found.")
  | _ :: _ =>
      ret (mkRecentEmojisResponse
             (map (fun r => mkEmojiInfo (r_emoji r) (r_explanation r)) recent_emojis))
  end.

(** [fetchEmojiExplanation_service.fetchEmojiExplanation]: [int(emoji_id)]
    is evaluated before the query is sent. *)
Definition fetchEmojiExplanation (emoji_id : string) : M GetEmojiExplanationResponse :=
  match py_int emoji_id with
  | None => raise (int_error emoji_id)
  | Some i =>
      emoji_record <- EmojiExplanation_find_unique_id i ;;
      match emoji_record with
      | None => raise (mkExc ValueError
                         ("No explanation found for emoji with id " ++ emoji_id))
      | Some r => ret (mkGetEmojiExplanationResponse (e_emoji r) (Some (e_explanation r)))
      end
  end.

(** [fetchExplanation_service.fetchExplanation]. *)
Definition fetchExplanation (id : string) : M EmojiExplanationResponse :=
  match py_int id with
  | None => raise (int_error id)
  | Some i =>
      emoji_explanation <- EmojiExplanation_find_unique_id i ;;
      match emoji_explanation with
      | None => raise (mkExc ValueError "No explanation found with the provided ID.")
      | Some r => ret (mkEmojiExplanationResponse (e_emoji r) (e_explanation r))
      end
  end.

(** [submitEmoji_service.submitEmoji]; [reply] is what the interpretation
    API answers to the POST.  [call_emoji_interpretation_service] returns
    a non-empty string whenever it returns, so the source's
    [interpretation_result is not None] test always holds and its [else]
    branch is never reached. *)
Definition submitEmoji (emoji : string) (reply : ExtReply) : M EmojiInterpretResponse :=
  interpretation_result <- call_emoji_interpretation_service emoji reply ;;
  existing_explanation <- EmojiExplanation_find_unique_emoji emoji ;;
  match existing_explanation with
  | None =>
      EmojiExplanation_create emoji interpretation_result ;;;
      ret (mkEmojiInterpretResponse emoji interpretation_result)
  | Some _ => ret (mkEmojiInterpretResponse emoji interpretation_result)
  end.

(** ** The router ([server.py]) *)

(** The typed results the thirteen handlers can return. *)
Inductive ResponseModel : Set :=
| RM_RecentEmojis (r : RecentEmojisResponse)
| RM_GetEmojiExplanation (r : GetEmojiExplanationResponse)
| RM_UserDetail (r : UserDetailResponse)
| RM_EmojiInterpret (r : EmojiInterpretResponse)
| RM_SystemStatus (r : SystemStatusResponse)
| RM_RemoveUserRole (r : RemoveUserRoleResponse)
| RM_EmojiExplanation (r : EmojiExplanationResponse)
| RM_ManageUserRole (r : ManageUserRoleResponse)
| RM_DeleteUser (r : DeleteUserResponse)
| RM_UpdateUserDetails (r : UpdateUserDetailsResponse)
| RM_UserAuthentication (r : UserAuthenticationResponse)
| RM_HealthCheck (r : HealthCheckResponse)
| RM_CreateUser (r : CreateUserResponse).

(** What is passed as [content=] to a Starlette [Response]. *)
Inductive Content : Set :=
| CNone
| CBytes (b : string)
| CStr (s : string)
| CDict (d : list (string * string)).

(** [jsonable_encoder] of a [dict] of strings is that same [dict]. *)
Definition jsonable_encoder (d : list (string * string)) : Content := CDict d.

(** Starlette's [Response.render]: [None] gives [b""], bytes pass through,
    anything else is sent [.encode(charset)], which a [dict] lacks. *)
Definition starlette_render (c : Content) : Outcome string :=
  match c with
  | CNone => Ret ""
  | CBytes b => Ret b
  | CStr s => Ret s
  | CDict _ => Raise (mkExc AttributeError "'dict' object has no attribute 'encode'")
  end.

Record Response : Set := mkResponse {
  status_code : Z;
  media_type : string;
  body : string
}.

(** [Response(content=..., status_code=..., media_type=...)]: the
    constructor renders the body. *)
Definition Response_new (content : Content) (status : Z) (media : string) : M Response :=
  fun s =>
  match starlette_render content with
  | Ret b => (s, [], Ret (mkResponse status media b))
  | Raise e => (s, [], Raise e)
  end.

(** What a handler returns: a response model (serialised by FastAPI) or a
    ready [Response]. *)
Inductive HandlerResult : Set :=
| Model (m : ResponseModel)
| Raw (r : Response).

(** The [except Exception as e] block shared by every handler. *)
Definition error_response (e : Exc) : M HandlerResult :=
  let res := [("error", exc_msg e)] in
  r <- Response_new (jsonable_encoder res) 500 "application/json" ;;
  ret (Raw r).

Definition api_handler (service : M ResponseModel) : M HandlerResult :=
  try_except (res <- service ;; ret (Model res)) error_response.

Definition fmapM {A B} (f : A -> B) (m : M A) : M B := x <- m ;; ret (f x).

(** A request to one of the routes, with the values the outside world
    supplies to it: the interpretation API's reply, the clock and the
    bcrypt salt. *)
Inductive Route : Set :=
| R_fetchRecentEmojis
| R_fetchEmojiExplanation (emoji_id : string)
| R_getUser (userId : Z) (now : Z)
| R_submitEmoji (emoji : string) (reply : ExtReply)
| R_systemHealthCheck (now : string)
| R_deleteUserRole (user_id : Z)
| R_fetchExplanation (id : string)
| R_addUserRole (user_id : Z) (new_role : Role)
| R_deleteUser (userId approverId : Z)
| R_updateUser (userId : Z) (email : option string) (role : option Role)
| R_authenticateUser (username password : string)
| R_getApiHealth
| R_createUser (username password : string) (role : Role) (salt : string).

Section Router.

Variable bcrypt_hashpw : string -> string -> string.

(** The service call each handler makes, with its result tagged. *)
Definition service_of (r : Route) : M ResponseModel :=
  match r with
  | R_fetchRecentEmojis => fmapM RM_RecentEmojis fetchRecentEmojis
  | R_fetchEmojiExplanation i => fmapM RM_GetEmojiExplanation (fetchEmojiExplanation i)
  | R_getUser u now => fmapM RM_UserDetail (getUser u now)
  | R_submitEmoji e rep => fmapM RM_EmojiInterpret (submitEmoji e rep)
  | R_systemHealthCheck now => fmapM RM_SystemStatus (systemHealthCheck now)
  | R_deleteUserRole u => fmapM RM_RemoveUserRole (deleteUserRole u)
  | R_fetchExplanation i => fmapM RM_EmojiExplanation (fetchExplanation i)
  | R_addUserRole u r => fmapM RM_ManageUserRole (addUserRole u r)
  | R_deleteUser u a => fmapM RM_DeleteUser (deleteUser u a)
  | R_updateUser u e r => fmapM RM_UpdateUserDetails (updateUser u e r)
  | R_authenticateUser n p => fmapM RM_UserAuthentication (authenticateUser n p)
  | R_getApiHealth => fmapM RM_HealthCheck getApiHealth
  | R_createUser n p r salt => fmapM RM_CreateUser (createUser bcrypt_hashpw n p r salt)
  end.

(** The handler bound to each route: the same [try]/[except] around the
    route's service call.  FastAPI's validation of the request parameters
    runs before the handler and is not modelled: a [Route] stands for a
    request that passed it. *)
Definition handler_of (r : Route) : M HandlerResult := api_handler (service_of r).

(** Running one request against the store. *)
Definition run_route (s : Store) (r : Route) : Store := st_of (handler_of r s).

(** Running a sequence of requests, one after the other. *)
Definition run_routes (s : Store) (rs : list Route) : Store := fold_left run_route rs s.

End Router.

(** The response the client receives.  A [Response] returned by the handler
    is sent as it is; a response model is serialised with status 200; an
    exception escaping the handler reaches Starlette's
    [ServerErrorMiddleware] (an [HTTPException] is first answered by the
    [ExceptionMiddleware] with its own status code). *)
Inductive HttpBody : Set :=
| BodyModel (m : ResponseModel)
| BodyBytes (b : string)
| BodyDetail (detail : string).

Record HttpResponse : Set := mkHttpResponse {
  http_status : Z;
  http_media_type : string;
  http_body : HttpBody
}.

Definition serve (o : Outcome HandlerResult) : HttpResponse :=
  match o with
  | Ret (Model m) => mkHttpResponse 200 "application/json" (BodyModel m)
  | Ret (Raw r) => mkHttpResponse (status_code r) (media_type r) (BodyBytes (body r))
  | Raise (mkExc (HTTPException c) msg) => mkHttpResponse c "application/json" (BodyDetail msg)
  | Raise _ => mkHttpResponse 500 "text/plain; charset=utf-8" (BodyBytes "Internal Server Error")
  end.

(** ** Route registration and path matching *)

Inductive Seg : Set :=
| Lit (s : string)
| Param (name : string).

Record RouteDecl : Set := mkRouteDecl {
  rd_method : string;
  rd_path : list Seg;
  rd_endpoint : string
}.

(** The [@app.*] decorators of [server.py], in registration order. *)
Definition routes : list RouteDecl :=
  [mkRouteDecl "GET" [Lit "emojis"; Lit "recent"] "api_get_fetchRecentEmojis";
   mkRouteDecl "GET" [Lit "emoji"; Lit "explanation"; Param "emoji_id"] "api_get_fetchEmojiExplanation";
   mkRouteDecl "GET" [Lit "users"; Param "userId"] "api_get_getUser";
   mkRouteDecl "POST" [Lit "emoji"; Lit "interpret"] "api_post_submitEmoji";
   mkRouteDecl "GET" [Lit "system"; Lit "status"] "api_get_systemHealthCheck";
   mkRouteDecl "DELETE" [Lit "admin"; Lit "user-role"; Param "user_id"] "api_delete_deleteUserRole";
   mkRouteDecl "GET" [Lit "emoji"; Lit "explanation"; Param "id"] "api_get_fetchExplanation";
   mkRouteDecl "POST" [Lit "admin"; Lit "user-role"] "api_post_addUserRole";
   mkRouteDecl "DELETE" [Lit "users"; Param "userId"] "api_delete_deleteUser";
   mkRouteDecl "PUT" [Lit "users"; Param "userId"] "api_put_updateUser";
   mkRouteDecl "POST" [Lit "users"; Lit "authenticate"] "api_post_authenticateUser";
   mkRouteDecl "GET" [Lit "health"] "api_get_getApiHealth";
   mkRouteDecl "POST" [Lit "users"] "api_post_createUser"].

(** Starlette's compiled path regex: a literal segment matches itself, a
    [{param}] matches any non-empty segment ([[^/]+]). *)
Fixpoint path_matches (p : list Seg) (segs : list string) : bool :=
  match p, segs with
  | [], [] => true
  | Lit l :: p', x :: segs' => String.eqb l x && path_matches p' segs'
  | Param _ :: p', x :: segs' => negb (String.eqb x "") && path_matches p' segs'
  | _, _ => false
  end.

(** The endpoint the router dispatches a request to: the first registered
    route whose method and path both match. *)
Fixpoint resolve (rs : list RouteDecl) (method : string) (segs : list string)
  : option string :=
  match rs with
  | [] => None
  | d :: rs' =>
      if String.eqb (rd_method d) method && path_matches (rd_path d) segs
      then Some (rd_endpoint d)
      else resolve rs' method segs
  end.

(** ** Observations used by the statements below *)

Definition is_db_op (e : Effect) : bool :=
  match e with DbOp _ _ => true | HttpPost _ => false end.

Definition is_http_call (e : Effect) : bool :=
  match e with DbOp _ _ => false | HttpPost _ => true end.

Definition count_db_ops (l : list Effect) : nat := length (filter is_db_op l).
Definition count_http_calls (l : list Effect) : nat := length (filter is_http_call l).

Definition is_submitEmoji_route (r : Route) : bool :=
  match r with R_submitEmoji _ _ => true | _ => false end.

Definition is_deleteUser_route (r : Route) : bool :=
  match r with R_deleteUser _ _ => true | _ => false end.

(** Whether [id] names an existing [ADMIN] user. *)
Definition is_admin_id (s : Store) (i : Z) : bool :=
  match find_user_id (users s) i with
  | Some a => Role_eqb (u_role a) ADMIN
  | None => false
  end.

(** The replies on which [call_emoji_interpretation_service] fails: no
    connection, a non-2xx status, or no usable ["explanation"] value. *)
Definition call_fails (reply : ExtReply) : bool :=
  match reply with
  | ConnFailure => true
  | Reply code b =>
      negb (Z.leb 200 code && Z.ltb code 300) ||
      match b with
      | NotJson | JsonBody None | JsonBody (Some "") => true
      | JsonBody (Some _) => false
      end
  end.


(** A relation [P] between the store before and after holds for every run
    of [m]. *)
Definition preserves (P : Store -> Store -> Prop) {A} (m : M A) : Prop :=
  forall s, P s (st_of (m s)).

(** Every [User] row of [s] still has a row with its id in [s']. *)
Definition ids_kept (s s' : Store) : Prop :=
  forall u, In u (users s) -> exists u', In u' (users s') /\ u_id u' = u_id u.

(** The autoincrement counter of [User] never goes back, and every row of
    [s'] with an id below the counter of [s] has a row in [s] with the
    same id and the same password. *)
Definition passwords_kept (s s' : Store) : Prop :=
  next_user_id s <= next_user_id s' /\
  forall u', In u' (users s') -> u_id u' < next_user_id s ->
    exists u, In u (users s) /\ u_id u = u_id u' /\ u_password u = u_password u'.

(** [a] comes no later than [b] in a newest-first listing. *)
Definition newer_first (a b : EmojiRequest) : Prop := r_createdAt b <= r_createdAt a.

(** ** Concrete stores and a stand-in for bcrypt, for the examples *)

(** Stand-in for [bcrypt.hashpw]: the [$2b$12$] prefix, the salt, then the
    password (the real digest is irrelevant to the examples). *)
Definition demo_hashpw (password salt : string) : string :=
  "$2b$12$" ++ salt ++ password.

Definition empty_store : Store := mkStore [] [] [] 1 1.

(** An administrator (id 1), a plain user (id 2) with one explained emoji
    request, no stored explanation. *)
Definition demo_store : Store :=
  mkStore [mkUser 1 "admin@example.com" "$2b$12$saltroot" ADMIN;
           mkUser 2 "user@example.com" "$2b$12$saltpass" USER]
          [mkEmojiRequest 1 2 "X" (Some "a smile") "EXPLAINED" 100]
          [] 3 1.

(** A plain user (id 1) and an administrator (id 2). *)
Definition demo_store_user_admin : Store :=
  mkStore [mkUser 1 "user@example.com" "$2b$12$saltpass" USER;
           mkUser 2 "admin@example.com" "$2b$12$saltroot" ADMIN]
          [] [] 3 1.

(** ** Observations used by the further properties *)

(** The value of a decimal numeral read left to right after [acc], as
    [int()] reads its digits. *)
Fixpoint uint_value (d : Decimal.uint) (acc : Z) : Z :=
  match d with
  | Decimal.Nil => acc
  | Decimal.D0 d => uint_value d (acc * 10 + 0)
  | Decimal.D1 d => uint_value d (acc * 10 + 1)
  | Decimal.D2 d => uint_value d (acc * 10 + 2)
  | Decimal.D3 d => uint_value d (acc * 10 + 3)
  | Decimal.D4 d => uint_value d (acc * 10 + 4)
  | Decimal.D5 d => uint_value d (acc * 10 + 5)
  | Decimal.D6 d => uint_value d (acc * 10 + 6)
  | Decimal.D7 d => uint_value d (acc * 10 + 7)
  | Decimal.D8 d => uint_value d (acc * 10 + 8)
  | Decimal.D9 d => uint_value d (acc * 10 + 9)
  end.

(** A character [str.strip()] keeps. *)
Definition not_space (c : ascii) : Prop := is_py_space c = false.

(** * Properties *)

(** ** The error path of the handlers *)

Lemma api_handler_raise (m : M ResponseModel) (s : Store) (e : Exc) :
  out_of (m s) = Raise e ->
  out_of (api_handler m s) =
    Raise (mkExc AttributeError "'dict' object has no attribute 'encode'").
Proof.
  unfold api_handler, try_except, bind, out_of.
  destruct (m s) as [[s1 l1] o]; simpl; intros ->; reflexivity.
Qed.

(** C1 (every handler, every request): when the service call raises [e],
    the [except] block builds [Response(content=jsonable_encoder({"error":
    str(e)}))]; rendering that [dict] raises [AttributeError], so the client
    gets Starlette's plain-text ["Internal Server Error"] with status 500,
    never a JSON body carrying [str(e)] under ["error"]. *)
Theorem handler_error_is_plain_text_500 (hp : string -> string -> string)
    (r : Route) (s : Store) (e : Exc) :
  out_of (service_of hp r s) = Raise e ->
  out_of (handler_of hp r s) =
    Raise (mkExc AttributeError "'dict' object has no attribute 'encode'") /\
  serve (out_of (handler_of hp r s)) =
    mkHttpResponse 500 "text/plain; charset=utf-8" (BodyBytes "Internal Server Error").
Proof.
  intros H. unfold handler_of. rewrite (api_handler_raise _ _ _ H). split; reflexivity.
Qed.

(** ** deleteUser *)

(** C3: an approver that is missing or not [ADMIN] stops [deleteUser]
    after its first query, with the approver error and the store as it
    was. *)
Theorem deleteUser_unauthorized_approver (s : Store) (userId approverId : Z) :
  is_admin_id s approverId = false ->
  deleteUser userId approverId s =
    (s, [DbOp "User" "find_unique"],
     Ret (mkDeleteUserResponse "error" "Approver is not authorized or does not exist.")).
Proof.
  unfold is_admin_id, deleteUser, bind, User_find_unique_id, ret.
  destruct (find_user_id (users s) approverId) as [a|]; simpl.
  - destruct (u_role a); simpl; [discriminate | reflexivity].
  - reflexivity.
Qed.

(** ** Relations preserved by every request *)

Section Preserves.

Variable P : Store -> Store -> Prop.
Hypothesis P_refl : forall s, P s s.
Hypothesis P_trans : forall s1 s2 s3, P s1 s2 -> P s2 s3 -> P s1 s3.
(** [P] only looks at the [User] table and its counter. *)
Hypothesis P_users_same : forall s s', users s = users s' ->
  next_user_id s = next_user_id s' -> P s s'.
Hypothesis P_create : forall e pw r, preserves P (User_create e pw r).
Hypothesis P_update : forall i f,
  (forall v, u_id (f v) = u_id v /\ u_password (f v) = u_password v) ->
  preserves P (User_update i f).

Lemma preserves_ret {A} (a : A) : preserves P (ret a).
Proof. intro s. apply P_refl. Qed.

Lemma preserves_raise {A} (e : Exc) : preserves P (A:=A) (raise e).
Proof. intro s. apply P_refl. Qed.

Lemma preserves_bind {A B} (m : M A) (k : A -> M B) :
  preserves P m -> (forall a, preserves P (k a)) -> preserves P (bind m k).
Proof.
  intros Hm Hk s. unfold preserves, bind, st_of in *. specialize (Hm s).
  destruct (m s) as [[s1 l1] [a|e]]; simpl in *; [|exact Hm].
  specialize (Hk a s1). destruct (k a s1) as [[s2 l2] r]. simpl in *. eauto.
Qed.

Lemma preserves_try_except {A} (m : M A) (h : Exc -> M A) :
  preserves P m -> (forall e, preserves P (h e)) -> preserves P (try_except m h).
Proof.
  intros Hm Hh s. unfold preserves, try_except, st_of in *. specialize (Hm s).
  destruct (m s) as [[s1 l1] [a|e]]; simpl in *; [exact Hm|].
  specialize (Hh e s1). destruct (h e s1) as [[s2 l2] r]. simpl in *. eauto.
Qed.

Lemma preserves_fmapM {A B} (f : A -> B) (m : M A) :
  preserves P m -> preserves P (fmapM f m).
Proof. intros. apply preserves_bind; [assumption | intros; apply preserves_ret]. Qed.

Lemma preserves_same_users {A} (m : M A) :
  (forall s, users (st_of (m s)) = users s /\ next_user_id (st_of (m s)) = next_user_id s) ->
  preserves P m.
Proof. intros H s. destruct (H s) as [H1 H2]. apply P_users_same; congruence. Qed.

Ltac same_users :=
  apply preserves_same_users; intro s; unfold st_of; simpl;
  repeat match goal with |- context [match ?x with _ => _ end] => destruct x end;
  simpl; split; reflexivity.

Lemma preserves_Response_new c st mt : preserves P (Response_new c st mt).
Proof. unfold Response_new. same_users. Qed.

Lemma preserves_api_handler (m : M ResponseModel) :
  preserves P m -> preserves P (api_handler m).
Proof.
  intros. apply preserves_try_except.
  - apply preserves_bind; [assumption | intros; apply preserves_ret].
  - intros e. apply preserves_bind; [apply preserves_Response_new | intros; apply preserves_ret].
Qed.

Lemma preserves_User_find_unique_id i : preserves P (User_find_unique_id i).
Proof. unfold User_find_unique_id. same_users. Qed.
Lemma preserves_User_find_unique_email e : preserves P (User_find_unique_email e).
Proof. unfold User_find_unique_email. same_users. Qed.
Lemma preserves_User_find_unique_with_requests i :
  preserves P (User_find_unique_with_requests i).
Proof. unfold User_find_unique_with_requests. same_users. Qed.
Lemma preserves_EmojiRequest_delete_many_user i :
  preserves P (EmojiRequest_delete_many_user i).
Proof. unfold EmojiRequest_delete_many_user. same_users. Qed.
Lemma preserves_EmojiRequest_count : preserves P EmojiRequest_count.
Proof. unfold EmojiRequest_count. same_users. Qed.
Lemma preserves_EmojiRequest_find_many_recent : preserves P EmojiRequest_find_many_recent.
Proof. unfold EmojiRequest_find_many_recent. same_users. Qed.
Lemma preserves_EmojiExplanation_find_unique_id i :
  preserves P (EmojiExplanation_find_unique_id i).
Proof. unfold EmojiExplanation_find_unique_id. same_users. Qed.
Lemma preserves_EmojiExplanation_find_unique_emoji e :
  preserves P (EmojiExplanation_find_unique_emoji e).
Proof. unfold EmojiExplanation_find_unique_emoji. same_users. Qed.
Lemma preserves_EmojiExplanation_create e x : preserves P (EmojiExplanation_create e x).
Proof. unfold EmojiExplanation_create. same_users. Qed.
Lemma preserves_http_post u r : preserves P (http_post u r).
Proof. unfold http_post. same_users. Qed.

Lemma preserves_User_update_details i e r : preserves P (User_update_details i e r).
Proof.
  intro s. unfold User_update_details.
  destruct (find_user_id (users s) i); [|apply P_refl].
  destruct (match e with Some _ => _ | None => false end).
  - apply P_refl.
  - apply P_update. intros v. split; reflexivity.
Qed.

Create HintDb pres.
#[local] Hint Resolve preserves_ret preserves_raise preserves_Response_new
  preserves_User_find_unique_id preserves_User_find_unique_email
  preserves_User_find_unique_with_requests preserves_EmojiRequest_delete_many_user
  preserves_EmojiRequest_count preserves_EmojiRequest_find_many_recent
  preserves_EmojiExplanation_find_unique_id preserves_EmojiExplanation_find_unique_emoji
  preserves_EmojiExplanation_create preserves_http_post preserves_User_update_details
  P_create : pres.

(** Walk through a service: [bind], [try_except], the branches of
    [match] and [if], down to the primitives. *)
Ltac pres_tac :=
  repeat (cbv beta zeta;
    first
    [ solve [eauto with pres]
    | apply preserves_bind; [ | intro ]
    | apply preserves_try_except; [ | intro ]
    | apply P_update; intro; split; reflexivity
    | match goal with
      | |- preserves _ (match ?x with _ => _ end) => destruct x
      end ]).

Lemma preserves_call_emoji_interpretation_service e r :
  preserves P (call_emoji_interpretation_service e r).
Proof. unfold call_emoji_interpretation_service. pres_tac. Qed.

Lemma preserves_deleteUser_no_delete u a :
  (forall i, preserves P (User_delete i)) -> preserves P (deleteUser u a).
Proof. intros Hdel. unfold deleteUser. pres_tac. Qed.

Lemma preserves_route (hp : string -> string -> string) (r : Route) :
  is_deleteUser_route r = false -> preserves P (handler_of hp r).
Proof.
  intros Hr. unfold handler_of. apply preserves_api_handler.
  destruct r; try discriminate; simpl; apply preserves_fmapM;
  unfold fetchRecentEmojis, fetchEmojiExplanation, getUser, submitEmoji,
    systemHealthCheck, deleteUserRole, fetchExplanation, addUserRole,
    updateUser, UpdateUserDetailsResponse_new, authenticateUser, getApiHealth,
    createUser;
  pres_tac; apply preserves_call_emoji_interpretation_service.
Qed.

End Preserves.


(** ** Lists of users *)

Lemma In_update_user_id_inv (l : list User) i f u' :
  In u' (update_user_id l i f) -> In u' l \/ exists v, In v l /\ u' = f v.
Proof.
  induction l as [|u l IH]; simpl; [tauto|].
  destruct (Z.eqb (u_id u) i); simpl.
  - intros [<-|H]; [right; eauto | left; right; exact H].
  - intros [<-|H]; [left; left; reflexivity|].
    destruct (IH H) as [H'|[v [Hv ->]]]; [left; right; exact H' | right; eauto].
Qed.

Lemma In_update_user_id (l : list User) i f u :
  (forall v, u_id (f v) = u_id v) ->
  In u l -> exists u', In u' (update_user_id l i f) /\ u_id u' = u_id u.
Proof.
  intros Hf. induction l as [|v l IH]; simpl; [tauto|].
  destruct (Z.eqb (u_id v) i); simpl.
  - intros [->|H]; [exists (f u); simpl; auto | exists u; auto].
  - intros [->|H]; [exists u; auto|]. destruct (IH H) as [u' [H1 H2]]. eauto.
Qed.

Lemma In_remove_user_id_inv (l : list User) i u :
  In u (remove_user_id l i) -> In u l.
Proof.
  induction l as [|v l IH]; simpl; [tauto|].
  destruct (Z.eqb (u_id v) i); simpl; [auto|]. intros [<-|H]; auto.
Qed.

Lemma In_remove_user_id (l : list User) i t u :
  find_user_id l i = Some t -> In u l -> u <> t -> In u (remove_user_id l i).
Proof.
  induction l as [|v l IH]; simpl; [discriminate|].
  destruct (Z.eqb (u_id v) i).
  - intros Ht [<-|H] Hne; [congruence | exact H].
  - intros Ht [<-|H] Hne; simpl; auto.
Qed.

Lemma find_user_id_spec (l : list User) i u :
  find_user_id l i = Some u -> In u l /\ u_id u = i.
Proof.
  induction l as [|v l IH]; simpl; [discriminate|].
  destruct (Z.eqb (u_id v) i) eqn:E.
  - intros [= <-]. apply Z.eqb_eq in E. auto.
  - intros H. destruct (IH H). auto.
Qed.

Lemma find_user_email_spec (l : list User) e u :
  find_user_email l e = Some u -> In u l /\ u_email u = e.
Proof.
  induction l as [|v l IH]; simpl; [discriminate|].
  destruct (String.eqb (u_email v) e) eqn:E.
  - intros [= <-]. apply String.eqb_eq in E. auto.
  - intros H. destruct (IH H). auto.
Qed.

(** ** User rows kept by id *)

Lemma ids_kept_refl s : ids_kept s s.
Proof. intros u Hu. eauto. Qed.

Lemma ids_kept_trans s1 s2 s3 : ids_kept s1 s2 -> ids_kept s2 s3 -> ids_kept s1 s3.
Proof.
  intros H12 H23 u Hu. destruct (H12 u Hu) as [u2 [Hu2 E2]].
  destruct (H23 u2 Hu2) as [u3 [Hu3 E3]]. exists u3. split; congruence.
Qed.

Lemma ids_kept_users_same s s' :
  users s = users s' -> next_user_id s = next_user_id s' -> ids_kept s s'.
Proof. intros E _ u Hu. exists u. rewrite <- E. auto. Qed.

Lemma ids_kept_create e pw r : preserves ids_kept (User_create e pw r).
Proof.
  intros s. unfold User_create, st_of.
  destruct (find_user_email (users s) e); simpl; [apply ids_kept_refl|].
  intros v Hv. exists v. split; [apply in_or_app; left; exact Hv | reflexivity].
Qed.

Lemma ids_kept_update i f :
  (forall v, u_id (f v) = u_id v /\ u_password (f v) = u_password v) ->
  preserves ids_kept (User_update i f).
Proof.
  intros Hf s. unfold User_update, st_of.
  destruct (find_user_id (users s) i) as [x|]; simpl; [|apply ids_kept_refl].
  intros u Hu. apply In_update_user_id; [intro v; apply Hf | exact Hu].
Qed.

Lemma st_of_handler_fmapM {A} (f : A -> ResponseModel) (m : M A) s :
  st_of (api_handler (fmapM f m) s) = st_of (m s).
Proof.
  unfold api_handler, fmapM, try_except, bind, Response_new, ret, st_of.
  destruct (m s) as [[s1 l1] [a|e]]; reflexivity.
Qed.

(** [deleteUser] removes at most the row it found, and only when that row
    is not an [ADMIN]. *)
Lemma deleteUser_keeps_admin s userId approverId u :
  In u (users s) -> u_role u = ADMIN ->
  exists u', In u' (users (st_of (deleteUser userId approverId s))) /\ u_id u' = u_id u.
Proof.
  intros Hu Ha.
  unfold deleteUser, bind, User_find_unique_id, ret, st_of.
  destruct (find_user_id (users s) approverId) as [ap|]; simpl; [|eauto].
  destruct (negb (Role_eqb (u_role ap) ADMIN)); simpl; [eauto|].
  destruct (find_user_id (users s) userId) as [t|] eqn:Ht; simpl; [|eauto].
  destruct (Role_eqb (u_role t) ADMIN) eqn:Rt; simpl; [eauto|].
  unfold EmojiRequest_delete_many_user, User_delete. simpl.
  rewrite Ht. simpl. exists u. split; [|reflexivity].
  apply (In_remove_user_id _ _ t); [exact Ht | exact Hu |].
  intros ->. rewrite Ha in Rt. discriminate.
Qed.

(** C2 (amended): an [ADMIN] target makes [deleteUser] answer with an
    error and leave the store as it was; the message is ["Cannot delete an
    admin user."] when the approver is an existing [ADMIN] and the
    approver error otherwise.  No request removes the row of an [ADMIN]
    user, and no request other than [deleteUser] removes any [User] row. *)
Theorem admin_user_never_deleted (hp : string -> string -> string) (s : Store) :
  (forall (userId approverId : Z) (t : User),
     find_user_id (users s) userId = Some t -> u_role t = ADMIN ->
     st_of (deleteUser userId approverId s) = s /\
     out_of (deleteUser userId approverId s) =
       Ret (mkDeleteUserResponse "error"
              (if is_admin_id s approverId then "Cannot delete an admin user."
               else "Approver is not authorized or does not exist."))) /\
  (forall (r : Route) (u : User),
     In u (users s) -> (u_role u = ADMIN \/ is_deleteUser_route r = false) ->
     exists u', In u' (users (run_route hp s r)) /\ u_id u' = u_id u).
Proof.
  split.
  - intros userId approverId t Ht Ha.
    unfold is_admin_id, deleteUser, bind, User_find_unique_id, ret, st_of, out_of.
    destruct (find_user_id (users s) approverId) as [ap|]; simpl; [|split; reflexivity].
    destruct (u_role ap); simpl; [|split; reflexivity].
    rewrite Ht, Ha. simpl. split; reflexivity.
  - intros r u Hu [Ha|Hr].
    + destruct (is_deleteUser_route r) eqn:Hr.
      * destruct r; try discriminate. unfold run_route, handler_of. simpl.
        rewrite st_of_handler_fmapM. apply deleteUser_keeps_admin; assumption.
      * apply (preserves_route ids_kept ids_kept_refl ids_kept_trans
                 ids_kept_users_same ids_kept_create ids_kept_update hp r Hr s u Hu).
    + apply (preserves_route ids_kept ids_kept_refl ids_kept_trans
               ids_kept_users_same ids_kept_create ids_kept_update hp r Hr s u Hu).
Qed.

(** ** Stored passwords *)

Lemma passwords_kept_refl s : passwords_kept s s.
Proof. split; [lia|]. intros u' Hu' _. eauto. Qed.

Lemma passwords_kept_trans s1 s2 s3 :
  passwords_kept s1 s2 -> passwords_kept s2 s3 -> passwords_kept s1 s3.
Proof.
  intros [N12 H12] [N23 H23]. split; [lia|].
  intros u3 Hu3 Hlt. destruct (H23 u3 Hu3 ltac:(lia)) as [u2 [Hu2 [I2 P2]]].
  destruct (H12 u2 Hu2 ltac:(lia)) as [u1 [Hu1 [I1 P1]]].
  exists u1. split; [exact Hu1 | split; congruence].
Qed.

Lemma passwords_kept_users_same s s' :
  users s = users s' -> next_user_id s = next_user_id s' -> passwords_kept s s'.
Proof.
  intros E N. split; [lia|]. intros u' Hu' _. exists u'. rewrite E. auto.
Qed.

Lemma passwords_kept_create e pw r : preserves passwords_kept (User_create e pw r).
Proof.
  intros s. unfold User_create, st_of.
  destruct (find_user_email (users s) e); simpl; [apply passwords_kept_refl|].
  split; [simpl; lia|]. intros v Hv Hlt. simpl in Hv, Hlt. apply in_app_or in Hv as [Hv|[<-|[]]].
  - eauto.
  - simpl in Hlt. lia.
Qed.

Lemma passwords_kept_update i f :
  (forall v, u_id (f v) = u_id v /\ u_password (f v) = u_password v) ->
  preserves passwords_kept (User_update i f).
Proof.
  intros Hf s. unfold User_update, st_of.
  destruct (find_user_id (users s) i) as [x|]; simpl; [|apply passwords_kept_refl].
  split; [simpl; lia|]. intros u' Hu' _.
  destruct (In_update_user_id_inv _ _ _ _ Hu') as [H|[v [Hv ->]]]; [eauto|].
  destruct (Hf v). exists v. auto.
Qed.

Lemma passwords_kept_delete i : preserves passwords_kept (User_delete i).
Proof.
  intros s. unfold User_delete, st_of.
  destruct (find_user_id (users s) i) as [x|]; simpl; [|apply passwords_kept_refl].
  split; [simpl; lia|]. intros u' Hu' _. exists u'.
  split; [apply (In_remove_user_id_inv _ i); exact Hu' | auto].
Qed.

Ltac passwords_kept_args :=
  first [ exact passwords_kept_refl | exact passwords_kept_trans
        | exact passwords_kept_users_same | exact passwords_kept_create
        | exact passwords_kept_update | exact passwords_kept_delete | idtac ].

Lemma passwords_kept_route (hp : string -> string -> string) (r : Route) :
  preserves passwords_kept (handler_of hp r).
Proof.
  destruct (is_deleteUser_route r) eqn:Hr.
  - destruct r; try discriminate. unfold handler_of. simpl.
    eapply preserves_api_handler; passwords_kept_args.
    eapply preserves_fmapM; passwords_kept_args.
    eapply preserves_deleteUser_no_delete; passwords_kept_args.
  - eapply preserves_route; passwords_kept_args. exact Hr.
Qed.

Lemma passwords_kept_run_routes (hp : string -> string -> string) (rs : list Route) s :
  passwords_kept s (run_routes hp s rs).
Proof.
  revert s. induction rs as [|r rs IH]; intros s; simpl.
  - apply passwords_kept_refl.
  - apply (passwords_kept_trans _ (run_route hp s r)); [apply passwords_kept_route | apply IH].
Qed.

Lemma find_user_email_app_none (l : list User) e v :
  find_user_email l e = None ->
  find_user_email (app l [v]) e = if String.eqb (u_email v) e then Some v else None.
Proof.
  induction l as [|x l IH]; simpl; [destruct (String.eqb (u_email v) e); reflexivity|].
  destruct (String.eqb (u_email x) e); [discriminate | exact IH].
Qed.

Lemma authenticateUser_out name pw s :
  out_of (authenticateUser name pw s) =
  match find_user_email (users s) name with
  | None => Ret (mkUserAuthenticationResponse "" (Some "Invalid username or password"))
  | Some u =>
      if negb (String.eqb (u_password u) pw) then
        Ret (mkUserAuthenticationResponse "" (Some "Invalid username or password"))
      else Ret (mkUserAuthenticationResponse ("example_token_for_" ++ py_str_int (u_id u)) None)
  end.
Proof.
  unfold authenticateUser, bind, User_find_unique_email, out_of.
  destruct (find_user_email (users s) name) as [u|]; simpl; [|reflexivity].
  destruct (negb (String.eqb (u_password u) pw)); reflexivity.
Qed.

(** What the [createUser] request leaves in the store: its row is
    inserted before [Role[user.role]] raises. *)
Lemma run_route_createUser hp s username password role salt :
  find_user_email (users s) username = None ->
  run_route hp s (R_createUser username password role salt) =
    mkStore (app (users s) [mkUser (next_user_id s) username (hp password salt) role])
            (requests s) (explanations s) (next_user_id s + 1) (next_explanation_id s).
Proof.
  intros H. unfold run_route, handler_of. simpl. rewrite st_of_handler_fmapM.
  unfold createUser, bind, User_create, st_of. rewrite H. reflexivity.
Qed.

(** C4: the row [createUser] inserts holds [bcrypt_hashpw password salt],
    while [authenticateUser] compares the submitted password with the
    stored field as strings.  Whenever the hash differs from the password,
    logging in with it fails right after the creation, and it keeps
    failing for that user (whatever its email has become) after any later
    sequence of requests. *)
Theorem created_user_cannot_authenticate (hp : string -> string -> string)
    (s : Store) (username password : string) (role : Role) (salt : string) :
  (forall u, In u (users s) -> u_id u < next_user_id s) ->
  find_user_email (users s) username = None ->
  hp password salt <> password ->
  let s1 := run_route hp s (R_createUser username password role salt) in
  find_user_email (users s1) username =
    Some (mkUser (next_user_id s) username (hp password salt) role) /\
  out_of (authenticateUser username password s1) =
    Ret (mkUserAuthenticationResponse "" (Some "Invalid username or password")) /\
  (forall (rs : list Route) (name : string) (v : User),
     find_user_email (users (run_routes hp s1 rs)) name = Some v ->
     u_id v = next_user_id s ->
     out_of (authenticateUser name password (run_routes hp s1 rs)) =
       Ret (mkUserAuthenticationResponse "" (Some "Invalid username or password"))).
Proof.
  intros Hids Hfree Hhash s1.
  assert (E1 : find_user_email (users s1) username =
                 Some (mkUser (next_user_id s) username (hp password salt) role)).
  { unfold s1. rewrite run_route_createUser by exact Hfree. simpl.
    rewrite find_user_email_app_none by exact Hfree. simpl.
    rewrite String.eqb_refl. reflexivity. }
  assert (Hbad : forall v, u_password v = hp password salt ->
            negb (String.eqb (u_password v) password) = true).
  { intros v ->. destruct (String.eqb_spec (hp password salt) password); easy. }
  split; [exact E1|]. split.
  - rewrite authenticateUser_out, E1. rewrite Hbad by reflexivity. reflexivity.
  - intros rs name v Hv Hid. rewrite authenticateUser_out, Hv.
    destruct (find_user_email_spec _ _ _ Hv) as [Hin _].
    destruct (passwords_kept_run_routes hp rs s1) as [_ Hk].
    assert (Hn : next_user_id s1 = next_user_id s + 1).
    { unfold s1. rewrite run_route_createUser by exact Hfree. reflexivity. }
    destruct (Hk v Hin ltac:(lia)) as [u [Hu [Iu Pu]]].
    unfold s1 in Hu. rewrite run_route_createUser in Hu by exact Hfree. simpl in Hu.
    apply in_app_or in Hu as [Hu|[<-|[]]].
    + specialize (Hids u Hu). lia.
    + simpl in Pu. rewrite Hbad by congruence. reflexivity.
Qed.

(** ** Missing users *)

(** C5 (amended): on a missing user id, [addUserRole] and [deleteUserRole]
    look the user up first and answer with an error payload, store
    unchanged; [updateUser] does not look the user up first: it sends the
    update (a lookup when there is nothing to update) and raises, store
    unchanged, instead of returning a payload. *)
Theorem user_handlers_on_missing_user (s : Store) (i : Z) (new_role : Role)
    (email : option string) (role : option Role) :
  find_user_id (users s) i = None ->
  addUserRole i new_role s =
    (s, [DbOp "User" "find_unique"],
     Ret (mkManageUserRoleResponse false ("No user found with ID " ++ py_str_int i ++ "."))) /\
  deleteUserRole i s =
    (s, [DbOp "User" "find_unique"], Ret (mkRemoveUserRoleResponse false "User not found.")) /\
  st_of (updateUser i email role s) = s /\
  log_of (updateUser i email role s) =
    match email, role with
    | None, None => [DbOp "User" "find_unique"]
    | _, _ => [DbOp "User" "update"]
    end /\
  exists e, out_of (updateUser i email role s) = Raise e.
Proof.
  intros H.
  split; [unfold addUserRole, bind, User_find_unique_id, ret; rewrite H; reflexivity|].
  split; [unfold deleteUserRole, try_except, bind, User_find_unique_id, ret; rewrite H; reflexivity|].
  unfold updateUser, UpdateUserDetailsResponse_new, bind, User_find_unique_id,
    User_update_details, raise, st_of, log_of, out_of.
  destruct email as [e|]; [|destruct role as [r|]]; simpl; rewrite H; simpl; eauto.
Qed.

(** ** Effects of one request *)

Lemma log_of_api_handler (m : M ResponseModel) s :
  log_of (api_handler m s) = log_of (m s).
Proof.
  unfold api_handler, try_except, bind, error_response, Response_new, ret, log_of.
  destruct (m s) as [[s1 l1] [a|e]]; simpl; rewrite ?app_nil_r; reflexivity.
Qed.

(** Case on the innermost [match] first, so that the outer ones reduce. *)
Ltac split_matches :=
  repeat (simpl in *;
          match goal with
          | |- context [match ?x with _ => _ end] =>
              lazymatch x with
              | context [match _ with _ => _ end] => fail
              | _ => destruct x eqn:?
              end
          end).

(** C6 (amended): a request performs at most four data-store operations
    and at most one outbound call; only [submitEmoji] calls out, exactly
    once; after a failed call it does nothing else, after a successful one
    it looks the emoji up and possibly creates its row; four data-store
    operations are only [deleteUser]'s approver lookup, user lookup,
    [EmojiRequest.delete_many] and [User.delete]. *)
Theorem handler_effect_bounds (hp : string -> string -> string) (r : Route) (s : Store) :
  (count_db_ops (log_of (handler_of hp r s)) <= 4)%nat /\
  (count_http_calls (log_of (handler_of hp r s)) <= 1)%nat /\
  (is_submitEmoji_route r = false -> count_http_calls (log_of (handler_of hp r s)) = 0%nat) /\
  (count_db_ops (log_of (handler_of hp r s)) = 4%nat -> is_deleteUser_route r = true) /\
  (is_submitEmoji_route r = true -> (count_db_ops (log_of (handler_of hp r s)) <= 2)%nat) /\
  (is_submitEmoji_route r = true -> count_http_calls (log_of (handler_of hp r s)) = 1%nat) /\
  (forall emoji reply, r = R_submitEmoji emoji reply ->
     (call_fails reply = true /\ log_of (handler_of hp r s) = [HttpPost interpret_url]) \/
     (call_fails reply = false /\
      (log_of (handler_of hp r s) =
         [HttpPost interpret_url; DbOp "EmojiExplanation" "find_unique"] \/
       log_of (handler_of hp r s) =
         [HttpPost interpret_url; DbOp "EmojiExplanation" "find_unique";
          DbOp "EmojiExplanation" "create"]))) /\
  (count_db_ops (log_of (handler_of hp r s)) = 4%nat ->
   log_of (handler_of hp r s) =
     [DbOp "User" "find_unique"; DbOp "User" "find_unique";
      DbOp "EmojiRequest" "delete_many"; DbOp "User" "delete"]).
Proof.
  unfold handler_of. rewrite log_of_api_handler.
  destruct r; simpl; unfold fmapM;
  unfold fetchRecentEmojis, fetchEmojiExplanation, getUser, submitEmoji,
    call_emoji_interpretation_service, systemHealthCheck, deleteUserRole,
    fetchExplanation, addUserRole, updateUser, UpdateUserDetailsResponse_new,
    authenticateUser, getApiHealth, createUser, deleteUser, try_except, bind, ret, raise,
    User_find_unique_id, User_find_unique_email, User_find_unique_with_requests,
    User_update_details, User_create, User_update, User_delete,
    EmojiRequest_delete_many_user, EmojiRequest_count, EmojiRequest_find_many_recent,
    EmojiExplanation_find_unique_id, EmojiExplanation_find_unique_emoji,
    EmojiExplanation_create, http_post, call_fails, log_of;
  split_matches; unfold count_db_ops, count_http_calls; simpl;
  repeat split; intros; try discriminate; try lia;
  try match goal with
      | H : R_submitEmoji _ _ = R_submitEmoji _ _ |- _ =>
          injection H as <- <-; simpl; rewrite ?Heqb, ?Heqb0; simpl;
          first [left; split; reflexivity
                | right; split; [reflexivity | first [left; reflexivity | right; reflexivity]]]
      end.
Qed.

(** ** submitEmoji *)

Lemma call_fails_raises emoji reply s :
  call_fails reply = true ->
  exists e, call_emoji_interpretation_service emoji reply s =
              (s, [HttpPost interpret_url], Raise e).
Proof.
  intros H. unfold call_emoji_interpretation_service, bind, http_post, raise, ret.
  destruct reply as [|code b]; [simpl; eauto|]. unfold call_fails in H.
  destruct (Z.leb 200 code); destruct (Z.ltb code 300); simpl in *; eauto;
    destruct b as [|[x|]]; simpl in *; eauto; destruct x; simpl in *; eauto; discriminate.
Qed.

(** C7: when the one outbound call fails, [submitEmoji] raises right after
    it: exactly one POST, no retry, no data-store operation, store
    unchanged, and the client receives a 500. *)
Theorem submitEmoji_failed_call (hp : string -> string -> string) (s : Store)
    (emoji : string) (reply : ExtReply) :
  call_fails reply = true ->
  st_of (handler_of hp (R_submitEmoji emoji reply) s) = s /\
  log_of (handler_of hp (R_submitEmoji emoji reply) s) = [HttpPost interpret_url] /\
  (exists e, out_of (submitEmoji emoji reply s) = Raise e) /\
  http_status (serve (out_of (handler_of hp (R_submitEmoji emoji reply) s))) = 500.
Proof.
  intros H. destruct (call_fails_raises emoji reply s H) as [e He].
  assert (Hs : submitEmoji emoji reply s = (s, [HttpPost interpret_url], Raise e)).
  { unfold submitEmoji, bind at 1. rewrite He. reflexivity. }
  assert (Hh : out_of (service_of hp (R_submitEmoji emoji reply) s) = Raise e).
  { simpl. unfold fmapM, bind at 1. rewrite Hs. reflexivity. }
  unfold handler_of. split; [|split; [|split]].
  - simpl. rewrite st_of_handler_fmapM, Hs. reflexivity.
  - rewrite log_of_api_handler. simpl. unfold fmapM, bind at 1. rewrite Hs. reflexivity.
  - exists e. rewrite Hs. reflexivity.
  - rewrite (api_handler_raise _ _ _ Hh). reflexivity.
Qed.

Lemma count_http_calls_app l1 l2 :
  count_http_calls (app l1 l2) = (count_http_calls l1 + count_http_calls l2)%nat.
Proof. unfold count_http_calls. rewrite filter_app, length_app. reflexivity. Qed.

Lemma submitEmoji_log emoji reply s :
  exists rest, log_of (submitEmoji emoji reply s) = HttpPost interpret_url :: rest /\
               count_http_calls rest = 0%nat.
Proof.
  unfold submitEmoji, call_emoji_interpretation_service, bind, http_post, raise, ret,
    EmojiExplanation_find_unique_emoji, EmojiExplanation_create, log_of.
  split_matches; eexists; split; reflexivity.
Qed.

(** C8: every [submitEmoji] starts with the outbound call, whatever the
    store holds, and makes no other; a stored explanation for the emoji
    leaves the store unchanged, and a row is added only when none exists;
    two submissions of the same emoji in a row make two calls. *)
Theorem submitEmoji_calls_out_every_time (s : Store) (emoji : string)
    (reply reply2 : ExtReply) :
  (exists rest, log_of (submitEmoji emoji reply s) = HttpPost interpret_url :: rest /\
                count_http_calls rest = 0%nat) /\
  (find_expl_emoji (explanations s) emoji <> None -> st_of (submitEmoji emoji reply s) = s) /\
  (st_of (submitEmoji emoji reply s) = s \/
   (find_expl_emoji (explanations s) emoji = None /\
    exists x, e_emoji x = emoji /\
      st_of (submitEmoji emoji reply s) =
        mkStore (users s) (requests s) (app (explanations s) [x])
                (next_user_id s) (next_explanation_id s + 1))) /\
  count_http_calls (app (log_of (submitEmoji emoji reply s))
                        (log_of (submitEmoji emoji reply2 (st_of (submitEmoji emoji reply s)))))
    = 2%nat.
Proof.
  split; [apply submitEmoji_log|]. split; [|split].
  - unfold submitEmoji, call_emoji_interpretation_service, bind, http_post, raise, ret,
      EmojiExplanation_find_unique_emoji, EmojiExplanation_create, st_of.
    intros Hne. split_matches; cbn; try reflexivity; congruence.
  - unfold submitEmoji, call_emoji_interpretation_service, bind, http_post, raise, ret,
      EmojiExplanation_find_unique_emoji, EmojiExplanation_create, st_of.
    split_matches; cbn; try (left; reflexivity).
    right. split; [reflexivity|]. eexists; split; [|reflexivity]; reflexivity.
  - rewrite count_http_calls_app.
    destruct (submitEmoji_log emoji reply s) as [r1 [E1 C1]].
    destruct (submitEmoji_log emoji reply2 (st_of (submitEmoji emoji reply s))) as [r2 [E2 C2]].
    rewrite E1, E2. unfold count_http_calls in *. simpl. lia.
Qed.

(** ** The two explanation lookups *)

Lemma explanation_patterns_same (segs : list string) :
  path_matches [Lit "emoji"; Lit "explanation"; Param "id"] segs =
  path_matches [Lit "emoji"; Lit "explanation"; Param "emoji_id"] segs.
Proof. destruct segs as [|a [|b [|c rest]]]; reflexivity. Qed.

Lemma fetchExplanation_shadowed (segs : list string) :
  resolve routes "GET" segs <> Some "api_get_fetchExplanation".
Proof.
  unfold routes. cbn -[path_matches]. rewrite explanation_patterns_same.
  repeat match goal with
         | |- context [if path_matches ?p segs then _ else _] => destruct (path_matches p segs)
         end; discriminate.
Qed.

(** C9 (amended): [fetchEmojiExplanation] and [fetchExplanation] read the
    store the same way and fail in the same cases; they differ only in the
    message of the [ValueError] raised when no row has the id.  Their two
    routes match exactly the same paths, and the first registered one
    always wins, so no request reaches [fetchExplanation]. *)
Theorem fetch_explanation_lookups_agree (s : Store) (id : string) :
  st_of (fetchEmojiExplanation id s) = s /\ st_of (fetchExplanation id s) = s /\
  log_of (fetchEmojiExplanation id s) = log_of (fetchExplanation id s) /\
  match py_int id with
  | None =>
      out_of (fetchEmojiExplanation id s) = Raise (int_error id) /\
      out_of (fetchExplanation id s) = Raise (int_error id)
  | Some i =>
      match find_expl_id (explanations s) i with
      | None =>
          out_of (fetchEmojiExplanation id s) =
            Raise (mkExc ValueError ("No explanation found for emoji with id " ++ id)) /\
          out_of (fetchExplanation id s) =
            Raise (mkExc ValueError "No explanation found with the provided ID.")
      | Some row =>
          out_of (fetchEmojiExplanation id s) =
            Ret (mkGetEmojiExplanationResponse (e_emoji row) (Some (e_explanation row))) /\
          out_of (fetchExplanation id s) =
            Ret (mkEmojiExplanationResponse (e_emoji row) (e_explanation row))
      end
  end /\
  (forall segs, path_matches [Lit "emoji"; Lit "explanation"; Param "id"] segs =
                path_matches [Lit "emoji"; Lit "explanation"; Param "emoji_id"] segs) /\
  (forall segs, resolve routes "GET" segs <> Some "api_get_fetchExplanation").
Proof.
  split; [|split; [|split; [|split; [|split]]]];
    try solve [apply explanation_patterns_same | apply fetchExplanation_shadowed];
    unfold fetchEmojiExplanation, fetchExplanation, bind, ret, raise,
      EmojiExplanation_find_unique_id, st_of, log_of, out_of;
    destruct (py_int id) as [i|]; try (split; reflexivity); try reflexivity;
    simpl; destruct (find_expl_id (explanations s) i); simpl; try reflexivity;
    split; reflexivity.
Qed.

(** ** Recent emojis *)

Lemma In_insert_desc (r x : EmojiRequest) l : In x (insert_desc r l) <-> r = x \/ In x l.
Proof.
  induction l as [|y l IH]; simpl; [tauto|].
  destruct (Z.ltb (r_createdAt y) (r_createdAt r)); simpl; [tauto|]. rewrite IH. tauto.
Qed.

Lemma In_sort_createdAt_desc (x : EmojiRequest) l : In x (sort_createdAt_desc l) <-> In x l.
Proof.
  induction l as [|y l IH]; simpl; [tauto|]. rewrite In_insert_desc, IH. tauto.
Qed.

Lemma Sorted_insert_desc (r : EmojiRequest) l :
  Sorted newer_first l -> Sorted newer_first (insert_desc r l).
Proof.
  induction l as [|y l IH]; simpl; intros H; [repeat constructor|].
  destruct (Z.ltb (r_createdAt y) (r_createdAt r)) eqn:E.
  - apply Z.ltb_lt in E. constructor; [exact H | constructor; unfold newer_first; lia].
  - apply Z.ltb_ge in E. apply Sorted_inv in H as [Hl Hy].
    constructor; [apply IH; exact Hl|].
    destruct l as [|z l]; simpl; [constructor; unfold newer_first; lia|].
    apply HdRel_inv in Hy.
    destruct (Z.ltb (r_createdAt z) (r_createdAt r)); constructor; unfold newer_first in *; lia.
Qed.

Lemma Sorted_sort_createdAt_desc l : Sorted newer_first (sort_createdAt_desc l).
Proof. induction l; simpl; [constructor | apply Sorted_insert_desc; assumption]. Qed.

Lemma Sorted_firstn (n : nat) (l : list EmojiRequest) :
  Sorted newer_first l -> Sorted newer_first (firstn n l).
Proof.
  revert l. induction n as [|n IH]; intros l H; simpl; [constructor|].
  destruct l as [|x l]; [constructor|]. apply Sorted_inv in H as [Hl Hx].
  constructor; [apply IH; exact Hl|].
  destruct l as [|y l]; destruct n; simpl; constructor. apply HdRel_inv in Hx. exact Hx.
Qed.

Lemma In_firstn_inv {A} (n : nat) (l : list A) x : In x (firstn n l) -> In x l.
Proof. intros H. rewrite <- (firstn_skipn n l). apply in_or_app. left. exact H. Qed.

(** C10: [fetchRecentEmojis] reads the store once and changes nothing; it
    returns at most ten entries, taken from [EXPLAINED] requests, newest
    first; with no [EXPLAINED] request it raises [HTTPException(404)], and
    the client receives a 500. *)
Theorem fetchRecentEmojis_spec (hp : string -> string -> string) (s : Store) :
  st_of (fetchRecentEmojis s) = s /\
  log_of (fetchRecentEmojis s) = [DbOp "EmojiRequest" "find_many"] /\
  (forall resp, out_of (fetchRecentEmojis s) = Ret resp ->
     exists rows,
       emojis resp = map (fun r => mkEmojiInfo (r_emoji r) (r_explanation r)) rows /\
       (length rows <= 10)%nat /\
       (forall r, In r rows -> In r (requests s) /\ r_status r = "EXPLAINED") /\
       Sorted newer_first rows) /\
  (filter explained (requests s) = [] ->
     out_of (fetchRecentEmojis s) =
       Raise (mkExc (HTTPException 404) "404: No recent emojis found.") /\
     http_status (serve (out_of (handler_of hp R_fetchRecentEmojis s))) = 500).
Proof.
  assert (Hrun : fetchRecentEmojis s =
    match firstn 10 (sort_createdAt_desc (filter explained (requests s))) with
    | [] => (s, [DbOp "EmojiRequest" "find_many"],
             Raise (mkExc (HTTPException 404) "404: No recent emojis found."))
    | r :: rs => (s, app [DbOp "EmojiRequest" "find_many"] [],
                  Ret (mkRecentEmojisResponse
                         (map (fun r => mkEmojiInfo (r_emoji r) (r_explanation r)) (r :: rs))))
    end).
  { unfold fetchRecentEmojis, bind, EmojiRequest_find_many_recent, ret, raise.
    destruct (firstn 10 _); reflexivity. }
  split; [|split; [|split]].
  - rewrite Hrun. destruct (firstn 10 _); reflexivity.
  - rewrite Hrun. destruct (firstn 10 _); reflexivity.
  - intros resp. rewrite Hrun. unfold out_of.
    destruct (firstn 10 (sort_createdAt_desc (filter explained (requests s)))) as [|r0 rs] eqn:E;
      simpl; [discriminate|].
    intros [= <-]. exists (r0 :: rs). split; [reflexivity|]. rewrite <- E.
    split; [apply firstn_le_length|]. split.
    + intros r Hr. apply In_firstn_inv, In_sort_createdAt_desc, filter_In in Hr as [Hr He].
      split; [exact Hr|]. apply String.eqb_eq. exact He.
    + apply Sorted_firstn, Sorted_sort_createdAt_desc.
  - intros Hnone.
    assert (Ho : out_of (fetchRecentEmojis s) =
                 Raise (mkExc (HTTPException 404) "404: No recent emojis found.")).
    { rewrite Hrun, Hnone. reflexivity. }
    split; [exact Ho|].
    assert (Hs : out_of (service_of hp R_fetchRecentEmojis s) =
                 Raise (mkExc (HTTPException 404) "404: No recent emojis found.")).
    { simpl. unfold fmapM, bind at 1. rewrite Hrun, Hnone. reflexivity. }
    unfold handler_of. rewrite (api_handler_raise _ _ _ Hs). reflexivity.
Qed.

(** * Concrete instances *)

(** C1 at [GET /emojis/recent] on an empty store: the 404 raised by the
    service ends as a plain-text 500. *)
Lemma handler_error_is_plain_text_500_witness :
  out_of (service_of demo_hashpw R_fetchRecentEmojis empty_store) =
    Raise (mkExc (HTTPException 404) "404: No recent emojis found.") /\
  out_of (handler_of demo_hashpw R_fetchRecentEmojis empty_store) =
    Raise (mkExc AttributeError "'dict' object has no attribute 'encode'") /\
  serve (out_of (handler_of demo_hashpw R_fetchRecentEmojis empty_store)) =
    mkHttpResponse 500 "text/plain; charset=utf-8" (BodyBytes "Internal Server Error").
Proof.
  split; [reflexivity|].
  apply (handler_error_is_plain_text_500 demo_hashpw R_fetchRecentEmojis empty_store
           (mkExc (HTTPException 404) "404: No recent emojis found.")).
  reflexivity.
Defined.

(** C2: an [ADMIN] target (id 2) with a non-[ADMIN] approver (id 1) gets
    the approver error, not ["Cannot delete an admin user."]. *)
Lemma admin_target_unauthorized_approver_counterexample :
  find_user_id (users demo_store_user_admin) 2 =
    Some (mkUser 2 "admin@example.com" "$2b$12$saltroot" ADMIN) /\
  out_of (deleteUser 2 1 demo_store_user_admin) =
    Ret (mkDeleteUserResponse "error" "Approver is not authorized or does not exist.") /\
  out_of (deleteUser 2 1 demo_store_user_admin) <>
    Ret (mkDeleteUserResponse "error" "Cannot delete an admin user.").
Proof. split; [reflexivity | split; [reflexivity | discriminate]]. Defined.

Lemma admin_user_never_deleted_witness :
  find_user_id (users demo_store_user_admin) 2 =
    Some (mkUser 2 "admin@example.com" "$2b$12$saltroot" ADMIN) /\
  st_of (deleteUser 2 1 demo_store_user_admin) = demo_store_user_admin /\
  out_of (deleteUser 2 1 demo_store_user_admin) =
    Ret (mkDeleteUserResponse "error"
           (if is_admin_id demo_store_user_admin 1 then "Cannot delete an admin user."
            else "Approver is not authorized or does not exist.")) /\
  exists u', In u' (users (run_route demo_hashpw demo_store_user_admin (R_deleteUser 2 2))) /\
             u_id u' = 2.
Proof.
  split; [reflexivity|].
  destruct (admin_user_never_deleted demo_hashpw demo_store_user_admin) as [H1 H2].
  split; [|split].
  - apply (proj1 (H1 2 1 (mkUser 2 "admin@example.com" "$2b$12$saltroot" ADMIN)
                    eq_refl eq_refl)).
  - apply (proj2 (H1 2 1 (mkUser 2 "admin@example.com" "$2b$12$saltroot" ADMIN)
                    eq_refl eq_refl)).
  - apply (H2 (R_deleteUser 2 2) (mkUser 2 "admin@example.com" "$2b$12$saltroot" ADMIN)).
    + simpl. right. left. reflexivity.
    + left. reflexivity.
Defined.

Lemma deleteUser_unauthorized_approver_witness :
  is_admin_id demo_store_user_admin 1 = false /\
  deleteUser 2 1 demo_store_user_admin =
    (demo_store_user_admin, [DbOp "User" "find_unique"],
     Ret (mkDeleteUserResponse "error" "Approver is not authorized or does not exist.")).
Proof.
  split; [reflexivity|]. apply deleteUser_unauthorized_approver. reflexivity.
Defined.

Lemma created_user_cannot_authenticate_witness :
  (forall u, In u (users demo_store) -> u_id u < next_user_id demo_store) /\
  find_user_email (users demo_store) "new@example.com" = None /\
  demo_hashpw "pw" "salt" <> "pw" /\
  out_of (authenticateUser "new@example.com" "pw"
            (run_route demo_hashpw demo_store (R_createUser "new@example.com" "pw" USER "salt"))) =
    Ret (mkUserAuthenticationResponse "" (Some "Invalid username or password")).
Proof.
  assert (Hids : forall u, In u (users demo_store) -> u_id u < next_user_id demo_store).
  { simpl. intros u [<-|[<-|[]]]; simpl; lia. }
  assert (Hh : demo_hashpw "pw" "salt" <> "pw") by discriminate.
  split; [exact Hids | split; [reflexivity | split; [exact Hh|]]].
  apply (created_user_cannot_authenticate demo_hashpw demo_store "new@example.com" "pw"
           USER "salt" Hids eq_refl Hh).
Defined.

(** C5: [updateUser] on a missing id sends the update straight away and
    raises instead of answering with an error payload. *)
Lemma updateUser_missing_user_counterexample :
  find_user_id (users demo_store) 7 = None /\
  updateUser 7 (Some "x@example.com") None demo_store =
    (demo_store, [DbOp "User" "update"],
     Raise (mkExc ValidationError "1 validation error for UpdateUserDetailsResponse")).
Proof. split; reflexivity. Defined.

Lemma user_handlers_on_missing_user_witness :
  find_user_id (users demo_store) 7 = None /\
  st_of (updateUser 7 (Some "x@example.com") None demo_store) = demo_store /\
  log_of (updateUser 7 (Some "x@example.com") None demo_store) = [DbOp "User" "update"] /\
  exists e, out_of (updateUser 7 (Some "x@example.com") None demo_store) = Raise e.
Proof.
  split; [reflexivity|].
  destruct (user_handlers_on_missing_user demo_store 7 USER (Some "x@example.com") None
              eq_refl) as [_ [_ H]].
  exact H.
Defined.

(** C6: deleting a plain user performs four data-store operations, and a
    submission both calls out and uses the data store. *)
Lemma handler_effect_counts_counterexample :
  count_db_ops (log_of (handler_of demo_hashpw (R_deleteUser 2 1) demo_store)) = 4%nat /\
  count_http_calls (log_of (handler_of demo_hashpw
    (R_submitEmoji "X" (Reply 200 (JsonBody (Some "a smile")))) demo_store)) = 1%nat /\
  count_db_ops (log_of (handler_of demo_hashpw
    (R_submitEmoji "X" (Reply 200 (JsonBody (Some "a smile")))) demo_store)) = 2%nat.
Proof. split; [|split]; reflexivity. Defined.

Lemma handler_effect_bounds_witness :
  count_db_ops (log_of (handler_of demo_hashpw (R_deleteUser 2 1) demo_store)) = 4%nat /\
  log_of (handler_of demo_hashpw (R_deleteUser 2 1) demo_store) =
    [DbOp "User" "find_unique"; DbOp "User" "find_unique";
     DbOp "EmojiRequest" "delete_many"; DbOp "User" "delete"] /\
  count_http_calls
    (log_of (handler_of demo_hashpw (R_submitEmoji "X" (Reply 200 (JsonBody (Some "a smile"))))
               demo_store)) = 1%nat.
Proof.
  assert (H4 : count_db_ops (log_of (handler_of demo_hashpw (R_deleteUser 2 1) demo_store))
               = 4%nat) by reflexivity.
  destruct (handler_effect_bounds demo_hashpw (R_deleteUser 2 1) demo_store)
    as [_ [_ [_ [_ [_ [_ [_ Hl]]]]]]].
  split; [exact H4 | split; [exact (Hl H4) |]].
  destruct (handler_effect_bounds demo_hashpw
              (R_submitEmoji "X" (Reply 200 (JsonBody (Some "a smile")))) demo_store)
    as [_ [_ [_ [_ [_ [Hc _]]]]]].
  exact (Hc eq_refl).
Defined.

Lemma submitEmoji_failed_call_witness :
  call_fails (Reply 503 NotJson) = true /\
  st_of (handler_of demo_hashpw (R_submitEmoji "X" (Reply 503 NotJson)) demo_store) = demo_store /\
  log_of (handler_of demo_hashpw (R_submitEmoji "X" (Reply 503 NotJson)) demo_store) =
    [HttpPost interpret_url] /\
  (exists e, out_of (submitEmoji "X" (Reply 503 NotJson) demo_store) = Raise e) /\
  http_status (serve (out_of (handler_of demo_hashpw
    (R_submitEmoji "X" (Reply 503 NotJson)) demo_store))) = 500.
Proof.
  split; [reflexivity|].
  apply (submitEmoji_failed_call demo_hashpw demo_store "X" (Reply 503 NotJson)). reflexivity.
Defined.

Lemma submitEmoji_calls_out_every_time_witness :
  count_http_calls
    (app (log_of (submitEmoji "X" (Reply 200 (JsonBody (Some "a smile"))) demo_store))
         (log_of (submitEmoji "X" (Reply 200 (JsonBody (Some "a smile")))
                    (st_of (submitEmoji "X" (Reply 200 (JsonBody (Some "a smile"))) demo_store)))))
    = 2%nat.
Proof.
  apply (submitEmoji_calls_out_every_time demo_store "X" (Reply 200 (JsonBody (Some "a smile")))
           (Reply 200 (JsonBody (Some "a smile")))).
Defined.

(** C9: on a missing row the two lookups raise different messages. *)
Lemma fetch_explanation_messages_counterexample :
  out_of (fetchEmojiExplanation "1" empty_store) =
    Raise (mkExc ValueError "No explanation found for emoji with id 1") /\
  out_of (fetchExplanation "1" empty_store) =
    Raise (mkExc ValueError "No explanation found with the provided ID.") /\
  "No explanation found for emoji with id 1" <> "No explanation found with the provided ID.".
Proof. split; [reflexivity | split; [reflexivity | discriminate]]. Defined.

Lemma fetch_explanation_lookups_agree_witness :
  resolve routes "GET" ["emoji"; "explanation"; "1"] = Some "api_get_fetchEmojiExplanation" /\
  resolve routes "GET" ["emoji"; "explanation"; "1"] <> Some "api_get_fetchExplanation".
Proof.
  split; [reflexivity|].
  apply (fetch_explanation_lookups_agree empty_store "1").
Defined.

Lemma fetchRecentEmojis_spec_witness :
  filter explained (requests empty_store) = [] /\
  http_status (serve (out_of (handler_of demo_hashpw R_fetchRecentEmojis empty_store))) = 500.
Proof.
  split; [reflexivity|].
  apply (fetchRecentEmojis_spec demo_hashpw empty_store). reflexivity.
Defined.

(** * Further properties of the services *)

Lemma of_uint_acc_value d p : Z.pos (Pos.of_uint_acc d p) = uint_value d (Z.pos p).
Proof.
  revert p. induction d; intros p; cbn [Pos.of_uint_acc uint_value]; try reflexivity; rewrite IHd; f_equal; lia.
Qed.

Lemma of_uint_value d : Z.of_N (Pos.of_uint d) = uint_value d 0.
Proof.
  induction d; simpl; try reflexivity; try exact IHd; apply of_uint_acc_value.
Qed.

Lemma parse_digits_uint d acc b :
  parse_digits (list_ascii_of_string (NilEmpty.string_of_uint d)) acc b =
  match d with Decimal.Nil => if b then Some acc else None | _ => Some (uint_value d acc) end.
Proof.
  revert acc b. induction d; intros acc b; simpl; try reflexivity;
    rewrite IHd; destruct d; reflexivity.
Qed.

Lemma strip_left_not_space l : Forall not_space l -> strip_left l = l.
Proof. destruct l as [|c l]; simpl; [reflexivity|]. intros H. inversion H. unfold not_space in *. rewrite H2. reflexivity. Qed.

Lemma py_strip_not_space l : Forall not_space l -> py_strip l = l.
Proof.
  intros H. unfold py_strip. rewrite (strip_left_not_space l H).
  rewrite strip_left_not_space; [apply rev_involutive | apply Forall_rev; exact H].
Qed.

Lemma uint_not_space d : Forall not_space (list_ascii_of_string (NilEmpty.string_of_uint d)).
Proof. induction d; simpl; repeat constructor; assumption. Qed.

Lemma py_int_uint d : d <> Decimal.Nil ->
  py_int (NilEmpty.string_of_uint d) = Some (uint_value d 0).
Proof.
  intros Hd. unfold py_int. rewrite py_strip_not_space by apply uint_not_space.
  pose proof (parse_digits_uint d 0 false) as H.
  destruct d; [congruence| ..]; simpl in *; exact H.
Qed.

Lemma py_int_neg_uint d : d <> Decimal.Nil ->
  py_int (String "-" (NilEmpty.string_of_uint d)) = Some (- uint_value d 0).
Proof.
  intros Hd. unfold py_int. rewrite py_strip_not_space
    by (constructor; [reflexivity | apply uint_not_space]).
  simpl. rewrite parse_digits_uint. destruct d; [congruence| ..]; reflexivity.
Qed.

(** X1: Python's [int()] reads back every integer [str()] prints. *)
Theorem py_int_str_int z : py_int (py_str_int z) = Some z.
Proof.
  unfold py_str_int. destruct z as [|p|p]; [reflexivity| |];
    simpl Z.to_int; unfold NilZero.string_of_int, NilZero.string_of_uint;
    pose proof (DecimalPos.Unsigned.to_uint_nonnil p) as Hn;
    pose proof (DecimalPos.Unsigned.of_to p) as Ho;
    pose proof (of_uint_value (Pos.to_uint p)) as Hv;
    destruct (Pos.to_uint p) eqn:E; try congruence;
    first [rewrite py_int_uint by discriminate | rewrite py_int_neg_uint by discriminate];
    rewrite <- Hv, Ho; reflexivity.
Qed.

Ltac unfold_services :=
  unfold fetchRecentEmojis, fetchEmojiExplanation, getUser, submitEmoji,
    call_emoji_interpretation_service, systemHealthCheck, deleteUserRole,
    fetchExplanation, addUserRole, updateUser, UpdateUserDetailsResponse_new,
    authenticateUser, getApiHealth, createUser, deleteUser, try_except, bind, ret, raise,
    User_find_unique_id, User_find_unique_email, User_find_unique_with_requests,
    User_update_details, User_create, User_update, User_delete,
    EmojiRequest_delete_many_user, EmojiRequest_count, EmojiRequest_find_many_recent,
    EmojiExplanation_find_unique_id, EmojiExplanation_find_unique_emoji,
    EmojiExplanation_create, http_post, st_of.

Lemma st_of_api_handler (m : M ResponseModel) (s : Store) :
  st_of (api_handler m s) = st_of (m s).
Proof.
  unfold api_handler, try_except, bind, error_response, Response_new, ret, st_of.
  destruct (m s) as [[s1 l1] [a|e]]; reflexivity.
Qed.

Lemma run_route_service (hp : string -> string -> string) (r : Route) (s : Store) :
  run_route hp s r = st_of (service_of hp r s).
Proof. unfold run_route, handler_of. apply st_of_api_handler. Qed.

Lemma requests_route (hp : string -> string -> string) (r : Route) (s : Store) :
  incl (requests (run_route hp s r)) (requests s).
Proof.
  rewrite run_route_service. destruct r; simpl; unfold fmapM; unfold_services;
  split_matches; try apply incl_refl.
  all: intros x Hx; apply filter_In in Hx; tauto.
Qed.

(** X5: no request adds an [EmojiRequest] row; from a store without
    any, [fetchRecentEmojis] raises its 404 after every sequence of
    requests. *)
Theorem requests_never_added (hp : string -> string -> string) (rs : list Route) (s : Store) :
  incl (requests (run_routes hp s rs)) (requests s) /\
  (requests s = [] ->
   out_of (fetchRecentEmojis (run_routes hp s rs)) =
     Raise (mkExc (HTTPException 404) "404: No recent emojis found.")).
Proof.
  assert (H : incl (requests (run_routes hp s rs)) (requests s)).
  { revert s. induction rs as [|r rs IH]; intros s; simpl; [apply incl_refl|].
    eapply incl_tran; [apply IH | apply requests_route]. }
  split; [exact H|]. intros Hnil. rewrite Hnil in H.
  destruct (requests (run_routes hp s rs)) as [|x l] eqn:E.
  - unfold fetchRecentEmojis, bind, EmojiRequest_find_many_recent, out_of, raise.
    rewrite E. reflexivity.
  - exfalso. apply (H x). left. reflexivity.
Qed.

(** X7: the outbound call makes one POST, leaves the store alone, and
    returns [x] exactly when the reply is a 2xx whose explanation field is
    the non-empty string [x]. *)
Theorem call_emoji_interpretation_service_result (emoji : string) (reply : ExtReply)
    (s : Store) (x : string) :
  st_of (call_emoji_interpretation_service emoji reply s) = s /\
  log_of (call_emoji_interpretation_service emoji reply s) = [HttpPost interpret_url] /\
  (out_of (call_emoji_interpretation_service emoji reply s) = Ret x <->
   exists code, 200 <= code < 300 /\ reply = Reply code (JsonBody (Some x)) /\ x <> "").
Proof.
  unfold call_emoji_interpretation_service, bind, http_post, raise, ret, st_of, log_of, out_of.
  destruct reply as [|code b].
  - simpl. split; [reflexivity|split; [reflexivity|]]. split; [discriminate|].
    intros [c [_ [H _]]]; discriminate.
  - destruct (Z.leb_spec 200 code) as [E1|E1]; destruct (Z.ltb_spec code 300) as [E2|E2];
      destruct b as [|[[|a y]|]]; simpl; (split; [reflexivity | split; [reflexivity|]]);
      (split;
       [ intros H; inversion H; subst; try (exists code; split; [lia | split; [reflexivity | discriminate]])
       | intros [c [Hc [Hr Hx]]]; inversion Hr; subst; first [lia | congruence | reflexivity] ]).
Qed.

Lemma find_expl_id_app_fresh (l : list EmojiExplanation) x :
  Forall (fun y => e_id y < e_id x) l -> find_expl_id (l ++ [x]) (e_id x) = Some x.
Proof.
  induction 1 as [|y l Hy _ IH]; simpl; [rewrite Z.eqb_refl; reflexivity|].
  destruct (Z.eqb (e_id y) (e_id x)) eqn:E; [apply Z.eqb_eq in E; lia | exact IH].
Qed.

(** X8: after a successful [submitEmoji] of a new emoji, fetching the
    explanation by the printed id of the new row returns that emoji and
    the explanation the service sent. *)
Theorem submitEmoji_then_fetch (s : Store) (emoji explanation : string) (code : Z) :
  200 <= code < 300 -> explanation <> "" ->
  find_expl_emoji (explanations s) emoji = None ->
  Forall (fun x => e_id x < next_explanation_id s) (explanations s) ->
  out_of (submitEmoji emoji (Reply code (JsonBody (Some explanation))) s) =
    Ret (mkEmojiInterpretResponse emoji explanation) /\
  out_of (fetchEmojiExplanation (py_str_int (next_explanation_id s))
            (st_of (submitEmoji emoji (Reply code (JsonBody (Some explanation))) s))) =
    Ret (mkGetEmojiExplanationResponse emoji (Some explanation)).
Proof.
  intros Hc Hx Hf Hn.
  assert (E : submitEmoji emoji (Reply code (JsonBody (Some explanation))) s =
    (mkStore (users s) (requests s)
       (explanations s ++ [mkEmojiExplanation (next_explanation_id s) emoji explanation])
       (next_user_id s) (next_explanation_id s + 1),
     [HttpPost interpret_url; DbOp "EmojiExplanation" "find_unique";
      DbOp "EmojiExplanation" "create"],
     Ret (mkEmojiInterpretResponse emoji explanation))).
  { unfold submitEmoji, call_emoji_interpretation_service, bind, http_post, raise, ret,
      EmojiExplanation_find_unique_emoji, EmojiExplanation_create.
    replace (Z.leb 200 code) with true by (symmetry; apply Z.leb_le; lia).
    replace (Z.ltb code 300) with true by (symmetry; apply Z.ltb_lt; lia).
    destruct explanation as [|a r]; [congruence|]. simpl. rewrite Hf. simpl. rewrite Hf. reflexivity. }
  rewrite E. split; [reflexivity|].
  unfold fetchEmojiExplanation, bind, EmojiExplanation_find_unique_id, ret, out_of, st_of.
  rewrite py_int_str_int. simpl.
  rewrite (find_expl_id_app_fresh _ (mkEmojiExplanation (next_explanation_id s) emoji explanation))
    by exact Hn.
  reflexivity.
Qed.

Lemma In_remove_user_id_nodup (l : list User) i u :
  NoDup (map u_id l) -> (In u (remove_user_id l i) <-> In u l /\ u_id u <> i).
Proof.
  induction l as [|v l IH]; simpl; [tauto|]. intros H.
  inversion H as [|a b Hv Hl]; subst.
  destruct (Z.eqb (u_id v) i) eqn:E.
  - apply Z.eqb_eq in E. split.
    + intros Hu. split; [right; exact Hu|]. intros Ei. apply Hv. rewrite E, <- Ei.
      apply in_map. exact Hu.
    + intros [[<-|Hu] Hne]; [contradiction | exact Hu].
  - apply Z.eqb_neq in E. simpl. rewrite (IH Hl). split.
    + intros [<-|[Hu Hne]]; [split; [left; reflexivity | exact E] | tauto].
    + intros [[<-|Hu] Hne]; [left; reflexivity | right; tauto].
Qed.

Lemma is_admin_id_true s i :
  is_admin_id s i = true -> exists a, find_user_id (users s) i = Some a /\ u_role a = ADMIN.
Proof.
  unfold is_admin_id. destruct (find_user_id (users s) i) as [a|]; [|discriminate].
  destruct (u_role a) eqn:E; [eauto | discriminate].
Qed.

(** X9: with an [ADMIN] approver, a missing target gives the error
    message and no change; a [USER] target is deleted with all of its
    emoji requests, and every other row is kept. *)
Theorem deleteUser_with_admin_approver (s : Store) (userId approverId : Z) :
  is_admin_id s approverId = true ->
  (find_user_id (users s) userId = None ->
   deleteUser userId approverId s =
     (s, [DbOp "User" "find_unique"; DbOp "User" "find_unique"],
      Ret (mkDeleteUserResponse "error" "User does not exist."))) /\
  (forall t, NoDup (map u_id (users s)) ->
   find_user_id (users s) userId = Some t -> u_role t = USER ->
   out_of (deleteUser userId approverId s) =
     Ret (mkDeleteUserResponse "success" "User successfully deleted.") /\
   find_user_id (users (st_of (deleteUser userId approverId s))) userId = None /\
   (forall u, In u (users (st_of (deleteUser userId approverId s))) <->
              In u (users s) /\ u_id u <> userId) /\
   (forall r, In r (requests (st_of (deleteUser userId approverId s))) <->
              In r (requests s) /\ r_userId r <> userId) /\
   explanations (st_of (deleteUser userId approverId s)) = explanations s).
Proof.
  intros Ha. destruct (is_admin_id_true s approverId Ha) as [a [Hfa Hra]].
  split.
  - intros Hn. unfold deleteUser, bind, User_find_unique_id, ret.
    rewrite Hfa, Hra. simpl. rewrite Hn. reflexivity.
  - intros t Hnd Ht Hrt.
    assert (E : deleteUser userId approverId s =
      (mkStore (remove_user_id (users s) userId)
               (filter (fun r => negb (Z.eqb (r_userId r) userId)) (requests s))
               (explanations s) (next_user_id s) (next_explanation_id s),
       [DbOp "User" "find_unique"; DbOp "User" "find_unique";
        DbOp "EmojiRequest" "delete_many"; DbOp "User" "delete"],
       Ret (mkDeleteUserResponse "success" "User successfully deleted."))).
    { unfold deleteUser, bind, User_find_unique_id, ret, EmojiRequest_delete_many_user,
        User_delete, set_users.
      rewrite Hfa, Hra. simpl. rewrite Ht, Hrt. simpl. rewrite Ht. reflexivity. }
    rewrite E. unfold st_of, out_of. simpl.
    split; [reflexivity|]. split; [|split; [|split; [|reflexivity]]].
    + destruct (find_user_id (remove_user_id (users s) userId) userId) as [v|] eqn:Hv;
        [|reflexivity].
      exfalso. apply find_user_id_spec in Hv as [Hv Ev].
      apply (In_remove_user_id_nodup _ userId v Hnd) in Hv as [_ Hne]. contradiction.
    + intros u. apply In_remove_user_id_nodup. exact Hnd.
    + intros r. rewrite filter_In. rewrite negb_true_iff, Z.eqb_neq. tauto.
Qed.

(** X10: the [createUser] service function, with a free email, inserts the
    row (hashed password, next id) with one [create] and then raises
    [KeyError] on the [repr()] of the stored role; with a taken email it
    raises the unique violation and changes nothing. *)
Theorem createUser_inserts_then_raises (hp : string -> string -> string) (s : Store)
    (username password : string) (role : Role) (salt : string) :
  (find_user_email (users s) username = None ->
   createUser hp username password role salt s =
     (mkStore (users s ++ [mkUser (next_user_id s) username (hp password salt) role])
              (requests s) (explanations s) (next_user_id s + 1) (next_explanation_id s),
      [DbOp "User" "create"], Raise (mkExc KeyError (Role_repr role)))) /\
  (forall v, find_user_email (users s) username = Some v ->
   st_of (createUser hp username password role salt s) = s /\
   out_of (createUser hp username password role salt s) =
     Raise (mkExc UniqueViolationError "Unique constraint failed on the fields: (`email`)")).
Proof.
  split.
  - intros Hn. unfold createUser, bind, User_create, raise. rewrite Hn. reflexivity.
  - intros v Hv. unfold createUser, bind, User_create, st_of, out_of. rewrite Hv.
    split; reflexivity.
Qed.

(** X11: [authenticateUser] only reads the store; it issues
    [example_token_for_<id>] when the row with that email stores that
    password, and the id in the token reads back with [int()]. *)
Theorem authenticateUser_outcome (s : Store) (name pw : string) :
  st_of (authenticateUser name pw s) = s /\
  log_of (authenticateUser name pw s) = [DbOp "User" "find_unique"] /\
  (forall u, find_user_email (users s) name = Some u -> u_password u = pw ->
   out_of (authenticateUser name pw s) =
     Ret (mkUserAuthenticationResponse ("example_token_for_" ++ py_str_int (u_id u)) None) /\
   py_int (py_str_int (u_id u)) = Some (u_id u)) /\
  ((forall u, find_user_email (users s) name = Some u -> u_password u <> pw) ->
   out_of (authenticateUser name pw s) =
     Ret (mkUserAuthenticationResponse "" (Some "Invalid username or password"))).
Proof.
  split; [|split; [|split]].
  - unfold authenticateUser, bind, User_find_unique_email, ret, st_of.
    destruct (find_user_email (users s) name) as [u|]; simpl; [|reflexivity].
    destruct (negb (String.eqb (u_password u) pw)); reflexivity.
  - unfold authenticateUser, bind, User_find_unique_email, ret, log_of.
    destruct (find_user_email (users s) name) as [u|]; simpl; [|reflexivity].
    destruct (negb (String.eqb (u_password u) pw)); reflexivity.
  - intros u Hu Hp. rewrite authenticateUser_out, Hu, Hp, String.eqb_refl.
    split; [reflexivity | apply py_int_str_int].
  - intros H. rewrite authenticateUser_out.
    destruct (find_user_email (users s) name) as [u|] eqn:Hu; [|reflexivity].
    destruct (String.eqb (u_password u) pw) eqn:E; [|reflexivity].
    apply String.eqb_eq in E. exfalso. exact (H u eq_refl E).
Qed.

Lemma find_user_id_update_same (l : list User) i f u :
  (forall v, u_id (f v) = u_id v) ->
  find_user_id l i = Some u -> find_user_id (update_user_id l i f) i = Some (f u).
Proof.
  intros Hf. induction l as [|v l IH]; simpl; [discriminate|].
  destruct (Z.eqb (u_id v) i) eqn:E; simpl.
  - intros [= <-]. rewrite Hf, E. reflexivity.
  - rewrite E. exact IH.
Qed.

Lemma find_user_id_update_other (l : list User) i j f :
  (forall v, u_id (f v) = u_id v) -> j <> i ->
  find_user_id (update_user_id l i f) j = find_user_id l j.
Proof.
  intros Hf Hne. induction l as [|v l IH]; simpl; [reflexivity|].
  destruct (Z.eqb (u_id v) i) eqn:E; simpl.
  - apply Z.eqb_eq in E. rewrite Hf.
    replace (Z.eqb (u_id v) j) with false by (symmetry; apply Z.eqb_neq; lia). reflexivity.
  - rewrite IH. reflexivity.
Qed.

Lemma update_user_id_twice (l : list User) i f g :
  (forall v, u_id (f v) = u_id v) ->
  update_user_id (update_user_id l i f) i g = update_user_id l i (fun v => g (f v)).
Proof.
  intros Hf. induction l as [|v l IH]; simpl; [reflexivity|].
  destruct (Z.eqb (u_id v) i) eqn:E; simpl.
  - rewrite Hf, E. reflexivity.
  - rewrite E, IH. reflexivity.
Qed.

Lemma addUserRole_found (s : Store) (i : Z) (r : Role) u :
  find_user_id (users s) i = Some u ->
  addUserRole i r s =
    (set_users s (update_user_id (users s) i (set_role r)),
     [DbOp "User" "find_unique"; DbOp "User" "update"],
     Ret (mkManageUserRoleResponse true "User role updated successfully.")).
Proof.
  intros Hu. unfold addUserRole, bind, User_find_unique_id, try_except, User_update, ret.
  rewrite Hu. simpl. rewrite Hu. reflexivity.
Qed.

Lemma deleteUserRole_found (s : Store) (i : Z) u :
  find_user_id (users s) i = Some u ->
  deleteUserRole i s =
    (set_users s (update_user_id (users s) i (set_role USER)),
     [DbOp "User" "find_unique"; DbOp "User" "update"],
     Ret (mkRemoveUserRoleResponse true "User role updated successfully.")).
Proof.
  intros Hu. unfold deleteUserRole, bind, User_find_unique_id, try_except, User_update, ret.
  rewrite Hu. simpl. rewrite Hu. reflexivity.
Qed.

Lemma addUserRole_missing (s : Store) (i : Z) (r : Role) :
  find_user_id (users s) i = None -> st_of (addUserRole i r s) = s.
Proof. intros Hu. unfold addUserRole, bind, User_find_unique_id, ret, st_of. rewrite Hu. reflexivity. Qed.

Lemma deleteUserRole_missing (s : Store) (i : Z) :
  find_user_id (users s) i = None -> st_of (deleteUserRole i s) = s.
Proof.
  intros Hu. unfold deleteUserRole, try_except, bind, User_find_unique_id, ret, st_of.
  rewrite Hu. reflexivity.
Qed.

(** X12: [addUserRole] on an existing user sets that user's role and
    leaves every other lookup by id, the requests and the explanations
    unchanged. *)
Theorem addUserRole_sets_role (s : Store) (i : Z) (r : Role) (u : User) :
  find_user_id (users s) i = Some u ->
  out_of (addUserRole i r s) = Ret (mkManageUserRoleResponse true "User role updated successfully.") /\
  find_user_id (users (st_of (addUserRole i r s))) i = Some (set_role r u) /\
  (forall j, j <> i -> find_user_id (users (st_of (addUserRole i r s))) j = find_user_id (users s) j) /\
  requests (st_of (addUserRole i r s)) = requests s /\
  explanations (st_of (addUserRole i r s)) = explanations s.
Proof.
  intros Hu. rewrite (addUserRole_found s i r u Hu). unfold st_of, out_of, set_users. simpl.
  split; [reflexivity|]. split; [apply find_user_id_update_same; [reflexivity | exact Hu]|].
  split; [|split; reflexivity]. intros j Hj. apply find_user_id_update_other; [reflexivity | exact Hj].
Qed.

(** X13: [deleteUserRole] sets an existing user's role to [USER];
    applied after [addUserRole] it leaves the store as it alone would, and
    applying it twice is the same as once. *)
Theorem deleteUserRole_demotes (s : Store) (i : Z) :
  (forall u, find_user_id (users s) i = Some u ->
   out_of (deleteUserRole i s) = Ret (mkRemoveUserRoleResponse true "User role updated successfully.") /\
   find_user_id (users (st_of (deleteUserRole i s))) i = Some (set_role USER u) /\
   (forall j, j <> i -> find_user_id (users (st_of (deleteUserRole i s))) j = find_user_id (users s) j)) /\
  (forall r, st_of (deleteUserRole i (st_of (addUserRole i r s))) = st_of (deleteUserRole i s)) /\
  st_of (deleteUserRole i (st_of (deleteUserRole i s))) = st_of (deleteUserRole i s).
Proof.
  split; [|split].
  - intros u Hu. rewrite (deleteUserRole_found s i u Hu). unfold st_of, out_of, set_users. simpl.
    split; [reflexivity|]. split; [apply find_user_id_update_same; [reflexivity | exact Hu]|].
    intros j Hj. apply find_user_id_update_other; [reflexivity | exact Hj].
  - intros r. destruct (find_user_id (users s) i) as [u|] eqn:Hu.
    + rewrite (addUserRole_found s i r u Hu). unfold st_of at 2. simpl.
      rewrite (deleteUserRole_found _ i (set_role r u))
        by (simpl; apply find_user_id_update_same; [reflexivity | exact Hu]).
      rewrite (deleteUserRole_found s i u Hu). unfold st_of, set_users. simpl.
      rewrite update_user_id_twice by reflexivity. reflexivity.
    + rewrite addUserRole_missing by exact Hu. reflexivity.
  - destruct (find_user_id (users s) i) as [u|] eqn:Hu.
    + rewrite (deleteUserRole_found s i u Hu). unfold st_of at 2. simpl.
      rewrite (deleteUserRole_found _ i (set_role USER u))
        by (simpl; apply find_user_id_update_same; [reflexivity | exact Hu]).
      unfold st_of, set_users. simpl.
      rewrite update_user_id_twice by reflexivity. reflexivity.
    + rewrite (deleteUserRole_missing s i Hu). rewrite (deleteUserRole_missing s i Hu). reflexivity.
Qed.

(** X14: the [updateUser] service function raises on every input: the
    response validation rejects every row (and the missing row), and the
    only other failure is the unique violation on the email. *)
Theorem updateUser_never_returns (s : Store)
    (userId : Z) (email : option string) (role : option Role) :
  exists e, out_of (updateUser userId email role s) = Raise e /\
            (exc_kind e = ValidationError \/ exc_kind e = UniqueViolationError).
Proof.
  unfold updateUser, UpdateUserDetailsResponse_new, validate_UserOut, LocalRole_lookup,
    bind, User_find_unique_id, User_update_details, User_update, raise, out_of.
  destruct email as [e|]; destruct role as [r|]; split_matches;
    eexists; (split; [reflexivity | simpl; auto]).
Qed.

(** X15: when there is data to update, the user exists and the new email
    is free, [updateUser] writes the new email and role to the row before
    the response validation raises. *)
Theorem updateUser_writes_before_failing (s : Store) (userId : Z) (email : option string)
    (role : option Role) (u : User) :
  find_user_id (users s) userId = Some u ->
  (email <> None \/ role <> None) ->
  (forall e v, email = Some e -> find_user_email (users s) e = Some v -> u_id v = userId) ->
  find_user_id (users (st_of (updateUser userId email role s))) userId =
    Some (mkUser (u_id u) (match email with Some e => e | None => u_email u end)
                 (u_password u) (match role with Some r => r | None => u_role u end)) /\
  out_of (updateUser userId email role s) =
    Raise (mkExc ValidationError "1 validation error for UpdateUserDetailsResponse").
Proof.
  intros Hu Hne Hc.
  assert (Hclash : match email with
                   | Some e => match find_user_email (users s) e with
                               | Some v => negb (Z.eqb (u_id v) userId)
                               | None => false end
                   | None => false end = false).
  { destruct email as [e|]; [|reflexivity].
    destruct (find_user_email (users s) e) as [v|] eqn:Hv; [|reflexivity].
    rewrite (Hc e v eq_refl Hv), Z.eqb_refl. reflexivity. }
  assert (E : User_update_details userId email role s =
    User_update userId (fun u =>
      mkUser (u_id u) (match email with Some e => e | None => u_email u end)
             (u_password u) (match role with Some r => r | None => u_role u end)) s).
  { unfold User_update_details. rewrite Hu, Hclash. reflexivity. }
  assert (Hd : (match email, role with None, None => false | _, _ => true end) = true).
  { destruct email; [reflexivity|]. destruct role; [reflexivity|]. destruct Hne; congruence. }
  unfold updateUser. rewrite Hd. unfold bind. cbv beta. rewrite E.
  unfold User_update. rewrite Hu. unfold st_of, out_of, set_users. simpl.
  split; [|reflexivity].
  set (g := fun v : User =>
    mkUser (u_id v) (match email with Some e => e | None => u_email v end)
           (u_password v) (match role with Some r => r | None => u_role v end)).
  change (find_user_id (update_user_id (users s) userId g) userId = Some (g u)).
  apply find_user_id_update_same; [reflexivity | exact Hu].
Qed.

(** X16: on an existing user, a new email held by another user makes
    [updateUser] raise the unique violation after one query, with the
    store unchanged. *)
Theorem updateUser_email_taken (s : Store) (userId : Z) (e : string) (role : option Role)
    (u v : User) :
  find_user_id (users s) userId = Some u ->
  find_user_email (users s) e = Some v -> u_id v <> userId ->
  updateUser userId (Some e) role s =
    (s, [DbOp "User" "update"],
     Raise (mkExc UniqueViolationError "Unique constraint failed on the fields: (`email`)")).
Proof.
  intros Hu Hv Hne. unfold updateUser, bind, User_update_details. rewrite Hu, Hv.
  replace (Z.eqb (u_id v) userId) with false by (symmetry; apply Z.eqb_neq; exact Hne).
  reflexivity.
Qed.

(** X17: [getUser] raises on every user id before sending any query,
    since its [include] names the scalar column [role]; the store is
    unchanged and the route [GET /users/{userId}] answers 500. *)
Theorem getUser_always_raises (hp : string -> string -> string) (s : Store) (userId now : Z) :
  (exists e, getUser userId now s = (s, [], Raise e) /\
             exc_kind e = UnknownRelationalFieldError) /\
  http_status (serve (out_of (handler_of hp (R_getUser userId now) s))) = 500.
Proof.
  assert (E : getUser userId now s =
    (s, [], Raise (mkExc UnknownRelationalFieldError
                   ("Field: " ++ dq ++ "role" ++ dq ++
                    " either does not exist or is not a relational field on the User model")))).
  { reflexivity. }
  split; [eexists; split; [exact E | reflexivity]|].
  assert (Hs : out_of (service_of hp (R_getUser userId now) s) =
    Raise (mkExc UnknownRelationalFieldError
             ("Field: " ++ dq ++ "role" ++ dq ++
              " either does not exist or is not a relational field on the User model"))).
  { reflexivity. }
  unfold handler_of. rewrite (api_handler_raise _ _ _ Hs). reflexivity.
Qed.

Lemma length_insert_desc (r : EmojiRequest) l : length (insert_desc r l) = S (length l).
Proof.
  induction l as [|x l IH]; simpl; [reflexivity|].
  destruct (Z.ltb (r_createdAt x) (r_createdAt r)); simpl; [reflexivity | rewrite IH; reflexivity].
Qed.

Lemma length_sort_createdAt_desc l : length (sort_createdAt_desc l) = length l.
Proof. induction l; simpl; [reflexivity | rewrite length_insert_desc, IHl; reflexivity]. Qed.

Lemma StronglySorted_app_inv {A} (R : A -> A -> Prop) l1 l2 x y :
  StronglySorted R (l1 ++ l2) -> In x l1 -> In y l2 -> R x y.
Proof.
  induction l1 as [|z l1 IH]; simpl; [tauto|]. intros H [<-|Hx] Hy.
  - apply StronglySorted_inv in H as [_ Hall]. rewrite Forall_forall in Hall.
    apply Hall. apply in_or_app. right. exact Hy.
  - apply StronglySorted_inv in H as [H _]. exact (IH H Hx Hy).
Qed.

(** X19: [fetchRecentEmojis] returns [min 10 n] entries for [n]
    [EXPLAINED] requests, and no [EXPLAINED] request left out is newer
    than one it returns. *)
Theorem fetchRecentEmojis_newest_ten (s : Store) (resp : RecentEmojisResponse) :
  out_of (fetchRecentEmojis s) = Ret resp ->
  exists rows,
    emojis resp = map (fun r => mkEmojiInfo (r_emoji r) (r_explanation r)) rows /\
    length rows = Nat.min 10 (length (filter explained (requests s))) /\
    (forall x y, In x rows -> In y (filter explained (requests s)) -> ~ In y rows ->
       r_createdAt y <= r_createdAt x).
Proof.
  unfold fetchRecentEmojis, bind, EmojiRequest_find_many_recent, ret, raise, out_of.
  set (l := sort_createdAt_desc (filter explained (requests s))).
  destruct (firstn 10 l) as [|r0 rs] eqn:E; simpl; [discriminate|].
  intros [= <-]. exists (r0 :: rs). split; [reflexivity|]. rewrite <- E. split.
  - rewrite length_firstn. unfold l. rewrite length_sort_createdAt_desc. reflexivity.
  - intros x y Hx Hy Hny.
    assert (Hs : StronglySorted newer_first (firstn 10 l ++ skipn 10 l)).
    { rewrite firstn_skipn. apply Sorted_StronglySorted.
      - intros a b c Hab Hbc. unfold newer_first in *. lia.
      - apply Sorted_sort_createdAt_desc. }
    assert (Hy' : In y (skipn 10 l)).
    { apply (In_sort_createdAt_desc y) in Hy. fold l in Hy.
      rewrite <- (firstn_skipn 10 l) in Hy. apply in_app_or in Hy as [Hy|Hy]; [contradiction | exact Hy]. }
    exact (StronglySorted_app_inv _ _ _ x y Hs Hx Hy').
Qed.

(** X20: each registered route other than the shadowed
    explanation-by-id route is reached by its own method and path, for
    any non-empty path parameter. *)
Theorem routes_dispatch (x : string) :
  x <> "" ->
  resolve routes "GET" ["emojis"; "recent"] = Some "api_get_fetchRecentEmojis" /\
  resolve routes "GET" ["emoji"; "explanation"; x] = Some "api_get_fetchEmojiExplanation" /\
  resolve routes "GET" ["users"; x] = Some "api_get_getUser" /\
  resolve routes "POST" ["emoji"; "interpret"] = Some "api_post_submitEmoji" /\
  resolve routes "GET" ["system"; "status"] = Some "api_get_systemHealthCheck" /\
  resolve routes "DELETE" ["admin"; "user-role"; x] = Some "api_delete_deleteUserRole" /\
  resolve routes "POST" ["admin"; "user-role"] = Some "api_post_addUserRole" /\
  resolve routes "DELETE" ["users"; x] = Some "api_delete_deleteUser" /\
  resolve routes "PUT" ["users"; x] = Some "api_put_updateUser" /\
  resolve routes "POST" ["users"; "authenticate"] = Some "api_post_authenticateUser" /\
  resolve routes "GET" ["health"] = Some "api_get_getApiHealth" /\
  resolve routes "POST" ["users"] = Some "api_post_createUser".
Proof.
  intros Hx. apply String.eqb_neq in Hx.
  repeat split; simpl; rewrite ?Hx; reflexivity.
Qed.

(** ** Concrete instances of the further properties *)

Lemma requests_never_added_witness :
  requests empty_store = [] /\
  out_of (fetchRecentEmojis (run_routes demo_hashpw empty_store
            [R_createUser "new@example.com" "pw" USER "salt";
             R_submitEmoji "X" (Reply 200 (JsonBody (Some "a smile")))])) =
    Raise (mkExc (HTTPException 404) "404: No recent emojis found.").
Proof.
  split; [reflexivity|].
  apply (proj2 (requests_never_added demo_hashpw _ empty_store)). reflexivity.
Defined.

Lemma submitEmoji_then_fetch_witness :
  (200 <= 200 < 300 /\ "a smile" <> "" /\
   find_expl_emoji (explanations demo_store) "X" = None /\
   Forall (fun x => e_id x < next_explanation_id demo_store) (explanations demo_store)) /\
  out_of (fetchEmojiExplanation (py_str_int (next_explanation_id demo_store))
            (st_of (submitEmoji "X" (Reply 200 (JsonBody (Some "a smile"))) demo_store))) =
    Ret (mkGetEmojiExplanationResponse "X" (Some "a smile")).
Proof.
  assert (H1 : 200 <= 200 < 300) by lia.
  assert (H2 : "a smile" <> "") by discriminate.
  assert (H3 : find_expl_emoji (explanations demo_store) "X" = None) by reflexivity.
  assert (H4 : Forall (fun x => e_id x < next_explanation_id demo_store) (explanations demo_store))
    by constructor.
  split; [tauto|].
  exact (proj2 (submitEmoji_then_fetch demo_store "X" "a smile" 200 H1 H2 H3 H4)).
Defined.

Lemma deleteUser_with_admin_approver_witness :
  is_admin_id demo_store 1 = true /\
  out_of (deleteUser 2 1 demo_store) =
    Ret (mkDeleteUserResponse "success" "User successfully deleted.") /\
  find_user_id (users (st_of (deleteUser 2 1 demo_store))) 2 = None /\
  deleteUser 7 1 demo_store =
    (demo_store, [DbOp "User" "find_unique"; DbOp "User" "find_unique"],
     Ret (mkDeleteUserResponse "error" "User does not exist.")).
Proof.
  assert (Ha : is_admin_id demo_store 1 = true) by reflexivity.
  assert (Hnd : NoDup (map u_id (users demo_store))).
  { simpl. constructor; [simpl; intuition discriminate | constructor; [simpl; tauto | constructor]]. }
  destruct (proj2 (deleteUser_with_admin_approver demo_store 2 1 Ha)
              (mkUser 2 "user@example.com" "$2b$12$saltpass" USER) Hnd eq_refl eq_refl)
    as [H1 [H2 _]].
  split; [exact Ha | split; [exact H1 | split; [exact H2 |]]].
  exact (proj1 (deleteUser_with_admin_approver demo_store 7 1 Ha) eq_refl).
Defined.

Lemma createUser_inserts_then_raises_witness :
  find_user_email (users demo_store) "new@example.com" = None /\
  out_of (createUser demo_hashpw "new@example.com" "pw" USER "salt" demo_store) =
    Raise (mkExc KeyError "<Role.USER: 'USER'>") /\
  st_of (createUser demo_hashpw "user@example.com" "pw" USER "salt" demo_store) = demo_store.
Proof.
  split; [reflexivity|]. split.
  - rewrite (proj1 (createUser_inserts_then_raises demo_hashpw demo_store
             "new@example.com" "pw" USER "salt") eq_refl). reflexivity.
  - exact (proj1 (proj2 (createUser_inserts_then_raises demo_hashpw demo_store
             "user@example.com" "pw" USER "salt")
             (mkUser 2 "user@example.com" "$2b$12$saltpass" USER) eq_refl)).
Defined.

Lemma authenticateUser_outcome_witness :
  find_user_email (users demo_store) "user@example.com" =
    Some (mkUser 2 "user@example.com" "$2b$12$saltpass" USER) /\
  out_of (authenticateUser "user@example.com" "$2b$12$saltpass" demo_store) =
    Ret (mkUserAuthenticationResponse ("example_token_for_" ++ py_str_int 2) None).
Proof.
  split; [reflexivity|].
  exact (proj1 (proj1 (proj2 (proj2 (authenticateUser_outcome demo_store
           "user@example.com" "$2b$12$saltpass")))
           (mkUser 2 "user@example.com" "$2b$12$saltpass" USER) eq_refl eq_refl)).
Defined.

Lemma addUserRole_sets_role_witness :
  find_user_id (users demo_store) 2 = Some (mkUser 2 "user@example.com" "$2b$12$saltpass" USER) /\
  find_user_id (users (st_of (addUserRole 2 ADMIN demo_store))) 2 =
    Some (set_role ADMIN (mkUser 2 "user@example.com" "$2b$12$saltpass" USER)).
Proof.
  split; [reflexivity|].
  exact (proj1 (proj2 (addUserRole_sets_role demo_store 2 ADMIN _ eq_refl))).
Defined.

Lemma deleteUserRole_demotes_witness :
  find_user_id (users demo_store) 1 = Some (mkUser 1 "admin@example.com" "$2b$12$saltroot" ADMIN) /\
  find_user_id (users (st_of (deleteUserRole 1 demo_store))) 1 =
    Some (set_role USER (mkUser 1 "admin@example.com" "$2b$12$saltroot" ADMIN)).
Proof.
  split; [reflexivity|].
  exact (proj1 (proj2 (proj1 (deleteUserRole_demotes demo_store 1) _ eq_refl))).
Defined.

Lemma updateUser_writes_before_failing_witness :
  find_user_id (users demo_store) 2 = Some (mkUser 2 "user@example.com" "$2b$12$saltpass" USER) /\
  find_user_id (users (st_of (updateUser 2 (Some "new@example.com") None demo_store))) 2 =
    Some (mkUser 2 "new@example.com" "$2b$12$saltpass" USER).
Proof.
  split; [reflexivity|].
  refine (proj1 (updateUser_writes_before_failing demo_store 2 (Some "new@example.com") None
            (mkUser 2 "user@example.com" "$2b$12$saltpass" USER) eq_refl _ _)).
  - left; discriminate.
  - intros e v He Hv. injection He as <-. discriminate Hv.
Defined.

Lemma updateUser_email_taken_witness :
  find_user_email (users demo_store) "admin@example.com" =
    Some (mkUser 1 "admin@example.com" "$2b$12$saltroot" ADMIN) /\
  updateUser 2 (Some "admin@example.com") None demo_store =
    (demo_store, [DbOp "User" "update"],
     Raise (mkExc UniqueViolationError "Unique constraint failed on the fields: (`email`)")).
Proof.
  split; [reflexivity|].
  apply (updateUser_email_taken demo_store 2 "admin@example.com" None
           (mkUser 2 "user@example.com" "$2b$12$saltpass" USER)
           (mkUser 1 "admin@example.com" "$2b$12$saltroot" ADMIN) eq_refl eq_refl).
  simpl; lia.
Defined.

Lemma fetchRecentEmojis_newest_ten_witness :
  exists resp, out_of (fetchRecentEmojis demo_store) = Ret resp /\
  exists rows, emojis resp = map (fun r => mkEmojiInfo (r_emoji r) (r_explanation r)) rows /\
               length rows = 1%nat.
Proof.
  eexists. split; [reflexivity|].
  destruct (fetchRecentEmojis_newest_ten demo_store _ eq_refl) as [rows [H1 [H2 _]]].
  exists rows. split; [exact H1 | exact H2].
Defined.

Lemma routes_dispatch_witness :
  "7" <> "" /\ resolve routes "GET" ["users"; "7"] = Some "api_get_getUser" /\
  resolve routes "DELETE" ["users"; "7"] = Some "api_delete_deleteUser".
Proof.
  assert (H : "7" <> "") by discriminate.
  destruct (routes_dispatch "7" H) as [_ [_ [Hg [_ [_ [_ [_ [Hd _]]]]]]]].
  split; [exact H | split; [exact Hg | exact Hd]].
Defined.
